(** * scripts/notebooklm_add_urls.py: the NotebookLM URL batch adder

    A shallow embedding of the helper script and the properties of its
    two-phase ingestion protocol.

    The script talks to a remote service through a client object.  Every
    method of that client is an opaque collaborator: it may return a value or
    raise.  The script is therefore embedded as a tree of collaborator calls
    ([prog]), and a run of the script is the interpretation of that tree
    against an arbitrary stateful handler ([run]).  All theorems quantify over
    the handler and its state, that is over every behaviour of the client. *)

From Stdlib Require Import List String Ascii Bool Arith Lia Floats.
Import ListNotations.

Local Open Scope string_scope.
Local Open Scope list_scope.

(** ** Exceptions *)

(** The four classes the script names in an [except] clause.  [TimeoutError]
    is the builtin, the other three come from [notebooklm.exceptions]. *)
Inductive exn_class : Type :=
| RPCError
| SourceAddError
| RateLimitError
| TimeoutError.

(** An instance of Python's [Exception]: what the script observes of it are
    the [isinstance] tests of its [except] clauses and [str(e)].  Keeping
    [isinstance] as a predicate leaves the class hierarchy of the client
    library open.  Process-control signals that derive from [BaseException]
    only (KeyboardInterrupt, SystemExit, CancelledError) are not exceptions
    in this sense. *)
Record exn : Type := Exn {
  isinstance : exn_class -> bool;
  str : string
}.

(** An exception raised by the interpreter itself (KeyError, TypeError,
    JSONDecodeError): an instance of none of the four classes. *)
Definition builtin_error (msg : string) : exn :=
  Exn (fun _ => false) msg.

(** An instance of exactly the class [c]. *)
Definition class_eqb (c d : exn_class) : bool :=
  match c, d with
  | RPCError, RPCError => true
  | SourceAddError, SourceAddError => true
  | RateLimitError, RateLimitError => true
  | TimeoutError, TimeoutError => true
  | _, _ => false
  end.

Definition raise_of (c : exn_class) (msg : string) : exn :=
  Exn (class_eqb c) msg.

(** The result of awaiting a call: a value or a raised exception. *)
Inductive outcome (A : Type) : Type :=
| Ok (a : A)
| Err (e : exn).
Arguments Ok {A} a.
Arguments Err {A} e.

(** ** Data returned by the client *)

Module Notebook.
Record t : Type := Make { id : string; title : string }.
End Notebook.

Module Source.
Record t : Type := Make { id : string }.
End Source.

(** The JSON object the script writes to standard output. *)
Record report : Type := Report {
  notebook_id : string;
  notebook_title : string;
  added : nat;
  failed : nat;
  errors : list string
}.

(** ** Collaborator calls *)

(** One constructor per client operation the script uses, indexed by the type
    of the value the call returns.  [FromStorage], [AEnter] and [AExit] are
    the three steps of [async with await NotebookLMClient.from_storage()]:
    [AExit] receives the exception that left the block, if any, and never
    suppresses it (the client's [__aexit__] returns a false value). *)
Inductive call : Type -> Type :=
| NotebooksGet (target : string) : call Notebook.t
| NotebooksList : call (list Notebook.t)
| NotebooksCreate (title : string) : call Notebook.t
| SourcesAddUrl (nb url : string) (wait : bool) : call Source.t
| SourcesWaitForSources (nb : string) (source_ids : list string)
    (timeout : float) : call unit
| FromStorage : call unit
| AEnter : call unit
| AExit (exc : option exn) : call unit.

(** What a run leaves behind, in order: every call with the outcome the
    script awaited before going on, and every document written to standard
    output. *)
Inductive event : Type :=
| EvGet (target : string) (r : outcome Notebook.t)
| EvList (r : outcome (list Notebook.t))
| EvCreate (title : string) (r : outcome Notebook.t)
| EvAddUrl (nb url : string) (wait : bool) (r : outcome Source.t)
| EvWait (nb : string) (source_ids : list string) (timeout : float)
    (r : outcome unit)
| EvFromStorage (r : outcome unit)
| EvAEnter (r : outcome unit)
| EvAExit (exc : option exn) (r : outcome unit)
| EvDump (doc : report).

Definition log {R : Type} (c : call R) : outcome R -> event :=
  match c in call R return outcome R -> event with
  | NotebooksGet target => EvGet target
  | NotebooksList => EvList
  | NotebooksCreate title => EvCreate title
  | SourcesAddUrl nb url wait => EvAddUrl nb url wait
  | SourcesWaitForSources nb ids timeout => EvWait nb ids timeout
  | FromStorage => EvFromStorage
  | AEnter => EvAEnter
  | AExit exc => EvAExit exc
  end.

(** ** Programs *)

(** A coroutine of the script: it returns, raises, awaits a collaborator call
    and continues with its outcome, or writes a document to standard output
    ([json.dump] followed by [flush]; the write itself is taken not to
    fail). *)
Inductive prog (A : Type) : Type :=
| Ret (a : A)
| Raise (e : exn)
| Await {R : Type} (c : call R) (k : outcome R -> prog A)
| Dump (doc : report) (k : prog A).
Arguments Ret {A} a.
Arguments Raise {A} e.
Arguments Await {A R} c k.
Arguments Dump {A} doc k.

Fixpoint bind {A B : Type} (p : prog A) (f : A -> prog B) : prog B :=
  match p with
  | Ret a => f a
  | Raise e => Raise e
  | Await c k => Await c (fun r => bind (k r) f)
  | Dump doc k => Dump doc (bind k f)
  end.

(** [await c]: the value of the call, or its exception raised here. *)
Definition await {R : Type} (c : call R) : prog R :=
  Await c (fun r => match r with Ok v => Ret v | Err e => Raise e end).

(** [try: p except Exception as e: h e]; a narrower clause re-raises in [h]
    what it does not match. *)
Fixpoint try_except {A : Type} (p : prog A) (h : exn -> prog A) : prog A :=
  match p with
  | Ret a => Ret a
  | Raise e => h e
  | Await c k => Await c (fun r => try_except (k r) h)
  | Dump doc k => Dump doc (try_except k h)
  end.

(** The exit of an [async with] block: [__aexit__] is awaited on every way
    out of the body, with the exception in flight if there is one; an
    exception raised by [__aexit__] itself replaces it. *)
Fixpoint aexit {A : Type} (body : prog A) : prog A :=
  match body with
  | Ret a =>
      Await (AExit None)
        (fun r => match r with Ok _ => Ret a | Err e' => Raise e' end)
  | Raise e =>
      Await (AExit (Some e))
        (fun r => match r with Ok _ => Raise e | Err e' => Raise e' end)
  | Await c k => Await c (fun r => aexit (k r))
  | Dump doc k => Dump doc (aexit k)
  end.

Declare Scope prog_scope.
Delimit Scope prog_scope with prog.
Notation "x <- p ;; q" := (bind p (fun x => q))
  (at level 61, p at next level, right associativity) : prog_scope.
Notation "p ;; q" := (bind p (fun _ => q))
  (at level 61, right associativity) : prog_scope.
Local Open Scope prog_scope.

(** ** Running a program against a client *)

(** A client with internal state [W]: it answers every call with an outcome
    and a new state. *)
Definition handler (W : Type) : Type :=
  forall R : Type, call R -> W -> outcome R * W.

Record result (W A : Type) : Type := Result {
  value : outcome A;
  trace : list event;
  world : W
}.
Arguments Result {W A} value trace world.
Arguments value {W A} r.
Arguments trace {W A} r.
Arguments world {W A} r.

Fixpoint run {W A : Type} (h : handler W) (p : prog A) (w : W)
  : result W A :=
  match p with
  | Ret a => Result (Ok a) [] w
  | Raise e => Result (Err e) [] w
  | Await c k =>
      let (r, w1) := h _ c w in
      let res := run h (k r) w1 in
      Result (value res) (log c r :: trace res) (world res)
  | Dump doc k =>
      let res := run h k w in
      Result (value res) (EvDump doc :: trace res) (world res)
  end.

Definition lift {A : Type} (o : outcome A) : prog A :=
  match o with
  | Ok a => Ret a
  | Err e => Raise e
  end.

(** ** Standard input *)

(** A JSON document that is not an object, by the Python type [json.load]
    gives it. *)
Inductive json_kind : Type :=
| JNull
| JBool
| JInt
| JFloat
| JString
| JArray.

(** What [json.load] returns.  Of an object only the two members the script
    reads matter; when present they have the types of the input contract and
    of the script's annotations ([str] and [list[str]]). *)
Inductive document : Type :=
| NotObject (k : json_kind)
| Object (notebook : option string) (urls : option (list string)).

(** Standard input: text that [json.load] rejects with the message [msg],
    or a JSON document. *)
Inductive stdin_content : Type :=
| NotJson (msg : string)
| Json (input_data : document).

(** [input_data[key]] on a value that is not a dict raises [TypeError]. *)
Definition not_subscriptable (k : json_kind) : exn :=
  builtin_error
    match k with
    | JNull => "'NoneType' object is not subscriptable"
    | JBool => "'bool' object is not subscriptable"
    | JInt => "'int' object is not subscriptable"
    | JFloat => "'float' object is not subscriptable"
    | JString => "string indices must be integers, not 'str'"
    | JArray => "list indices must be integers or slices, not str"
    end.

(** [str(KeyError(key))] is the [repr] of the key. *)
Definition key_error (key : string) : exn :=
  builtin_error ("'" ++ key ++ "'")%string.

Definition json_load (stdin : stdin_content) : outcome document :=
  match stdin with
  | NotJson msg => Err (builtin_error msg)
  | Json input_data => Ok input_data
  end.

Definition getitem {A : Type} (key : string) (member : option A)
  : outcome A :=
  match member with
  | Some v => Ok v
  | None => Err (key_error key)
  end.

(** [input_data["notebook"]] *)
Definition getitem_notebook (input_data : document) : outcome string :=
  match input_data with
  | NotObject k => Err (not_subscriptable k)
  | Object notebook _ => getitem "notebook" notebook
  end.

(** [input_data["urls"]] *)
Definition getitem_urls (input_data : document) : outcome (list string) :=
  match input_data with
  | NotObject k => Err (not_subscriptable k)
  | Object _ urls => getitem "urls" urls
  end.

(** ** The script *)

Definition default_timeout : float := 120%float.

(** [f"{url}: {error}"] *)
Definition format_error (failure : string * string) : string :=
  (fst failure ++ ": " ++ snd failure)%string.

Definition error_result (e : exn) : report :=
  {| notebook_id := "";
     notebook_title := "";
     added := 0;
     failed := 0;
     errors := [("Script error: " ++ str e)%string] |}.

(** The body of the loop of [add_urls_phase1], on the two accumulators. *)
Definition add_url_step (notebook_id : string)
  (acc : list string * list (string * string)) (url : string)
  : prog (list string * list (string * string)) :=
  let (added_source_ids, failed) := acc in
  try_except
    (source <- await (SourcesAddUrl notebook_id url false) ;;
     Ret (added_source_ids ++ [Source.id source], failed))
    (fun e =>
       if isinstance e SourceAddError || isinstance e RateLimitError
       then Ret (added_source_ids, failed ++ [(url, str e)])
       else Ret (added_source_ids,
                 failed ++ [(url, ("Unexpected error: " ++ str e)%string)])).

Fixpoint add_urls_loop (notebook_id : string) (urls : list string)
  (acc : list string * list (string * string))
  : prog (list string * list (string * string)) :=
  match urls with
  | [] => Ret acc
  | url :: rest =>
      acc' <- add_url_step notebook_id acc url ;;
      add_urls_loop notebook_id rest acc'
  end.

Definition add_urls_phase1 (notebook_id : string) (urls : list string)
  : prog (list string * list (string * string)) :=
  add_urls_loop notebook_id urls ([], []).

Definition wait_for_sources_phase2 (notebook_id : string)
  (source_ids : list string) (timeout : float) : prog unit :=
  match source_ids with
  | [] => Ret tt
  | _ :: _ =>
      try_except
        (await (SourcesWaitForSources notebook_id source_ids timeout))
        (fun e => if isinstance e TimeoutError then Ret tt else Raise e)
  end.

Section Script.

(** Python's [str.lower], a builtin over Unicode strings. *)
Variable lower : string -> string.

(** The [for nb in notebooks] loop of [resolve_notebook]. *)
Fixpoint find_by_title (target_lower : string)
  (notebooks : list Notebook.t) : option (string * string) :=
  match notebooks with
  | [] => None
  | nb :: rest =>
      if String.eqb (lower (Notebook.title nb)) target_lower
      then Some (Notebook.id nb, Notebook.title nb)
      else find_by_title target_lower rest
  end.

(** [resolve_notebook] from the listing on: what runs once the lookup by
    id has raised [RPCError]. *)
Definition search_or_create (target : string) : prog (string * string) :=
  notebooks <- await NotebooksList ;;
  let target_lower := lower target in
  match find_by_title target_lower notebooks with
  | Some found => Ret found
  | None =>
      notebook <- await (NotebooksCreate target) ;;
      Ret (Notebook.id notebook, Notebook.title notebook)
  end.

Definition resolve_notebook (target : string) : prog (string * string) :=
  by_id <- try_except
             (notebook <- await (NotebooksGet target) ;;
              Ret (Some (Notebook.id notebook, Notebook.title notebook)))
             (fun e => if isinstance e RPCError then Ret None else Raise e) ;;
  match by_id with
  | Some found => Ret found
  | None => search_or_create target
  end.

(** The block under [async with]. *)
Definition session_body (notebook_target : string) (urls : list string)
  : prog unit :=
  ids <- resolve_notebook notebook_target ;;
  let (notebook_id, notebook_title) := ids in
  phase1 <- add_urls_phase1 notebook_id urls ;;
  let (added_source_ids, failed) := phase1 in
  wait_for_sources_phase2 notebook_id added_source_ids default_timeout ;;
  let error_messages := map format_error failed in
  let result :=
    {| notebook_id := notebook_id;
       notebook_title := notebook_title;
       added := List.length added_source_ids;
       failed := List.length failed;
       errors := error_messages |} in
  Dump result (Ret tt).

(** [main]; its value is the exit status of the process: [0] when the
    coroutine returns, [1] after [sys.exit(1)]. *)
Definition main (stdin : stdin_content) : prog nat :=
  try_except
    (input_data <- lift (json_load stdin) ;;
     notebook_target <- lift (getitem_notebook input_data) ;;
     urls <- lift (getitem_urls input_data) ;;
     await FromStorage ;;
     await AEnter ;;
     aexit (session_body notebook_target urls) ;;
     Ret 0)
    (fun e => Dump (error_result e) (Ret 1)).

End Script.

(** ** Reading a trace *)

(** The source ids of the submissions that succeeded, in trace order. *)
Fixpoint added_of (tr : list event) : list string :=
  match tr with
  | [] => []
  | EvAddUrl _ _ _ (Ok source) :: rest => Source.id source :: added_of rest
  | _ :: rest => added_of rest
  end.

(** The per-URL error policy in the specification's words: a source-rejected
    or rate-limited condition keeps the message of the service, anything else
    is tagged as unexpected. *)
Definition failure_message (e : exn) : string :=
  if isinstance e SourceAddError then str e
  else if isinstance e RateLimitError then str e
  else ("Unexpected error: " ++ str e)%string.

(** The recorded failures of the submissions that raised, in trace order. *)
Fixpoint failed_of (tr : list event) : list (string * string) :=
  match tr with
  | [] => []
  | EvAddUrl _ url _ (Err e) :: rest => (url, failure_message e) :: failed_of rest
  | _ :: rest => failed_of rest
  end.

(** The URLs of the submission calls, in trace order. *)
Fixpoint submitted_of (tr : list event) : list string :=
  match tr with
  | [] => []
  | EvAddUrl _ url _ _ :: rest => url :: submitted_of rest
  | _ :: rest => submitted_of rest
  end.

(** The batched waits: notebook, ids and timeout of each, in trace order. *)
Fixpoint waits_of (tr : list event) : list (string * list string * float) :=
  match tr with
  | [] => []
  | EvWait nb ids timeout _ :: rest => (nb, ids, timeout) :: waits_of rest
  | _ :: rest => waits_of rest
  end.

(** Standard output: the documents written, in order. *)
Fixpoint stdout_of (tr : list event) : list report :=
  match tr with
  | [] => []
  | EvDump doc :: rest => doc :: stdout_of rest
  | _ :: rest => stdout_of rest
  end.

(** The calls to the remote service and to the session, without the writes
    to standard output. *)
Fixpoint calls_of (tr : list event) : list event :=
  match tr with
  | [] => []
  | EvDump _ :: rest => calls_of rest
  | ev :: rest => ev :: calls_of rest
  end.

(** Strictly sequential submission, as a reference: the call for a URL is
    answered, and the client's state updated, before the call for the next
    URL is made. *)
Fixpoint submit_in_turn {W : Type} (h : handler W) (notebook_id : string)
  (urls : list string) (w : W) : list event * W :=
  match urls with
  | [] => ([], w)
  | url :: rest =>
      let (r, w1) := h _ (SourcesAddUrl notebook_id url false) w in
      let (evs, w2) := submit_in_turn h notebook_id rest w1 in
      (EvAddUrl notebook_id url false r :: evs, w2)
  end.

(** The outcomes of the submission calls, in trace order. *)
Fixpoint outcomes_of (tr : list event) : list (outcome Source.t) :=
  match tr with
  | [] => []
  | EvAddUrl _ _ _ r :: rest => r :: outcomes_of rest
  | _ :: rest => outcomes_of rest
  end.

(** The exception [__aexit__] is told about. *)
Definition in_flight {A : Type} (o : outcome A) : option exn :=
  match o with
  | Ok _ => None
  | Err e => Some e
  end.

(** The report of a run that reached the end of the [async with] block. *)
Definition success_report (ids : string * string) (phase1 : list event)
  : report :=
  {| notebook_id := fst ids;
     notebook_title := snd ids;
     added := List.length (added_of phase1);
     failed := List.length (failed_of phase1);
     errors := map format_error (failed_of phase1) |}.

(** The events of notebook resolution. *)
Definition resolve_event (ev : event) : bool :=
  match ev with
  | EvGet _ _ | EvList _ | EvCreate _ _ => true
  | _ => false
  end.

(** The first exception standard input provokes before the client session
    is acquired, if any: [json.load], then the two subscripts. *)
Definition input_error (stdin : stdin_content) : option exn :=
  match json_load stdin with
  | Err e => Some e
  | Ok input_data =>
      match getitem_notebook input_data with
      | Err e => Some e
      | Ok _ =>
          match getitem_urls input_data with
          | Err e => Some e
          | Ok _ => None
          end
      end
  end.

(** ** Test doubles *)

(** [str.lower] on ASCII text. *)
Definition ascii_lower_char (c : ascii) : ascii :=
  let n := nat_of_ascii c in
  if ((65 <=? n) && (n <=? 90))%nat then ascii_of_nat (n + 32) else c.

Fixpoint ascii_lower (s : string) : string :=
  match s with
  | EmptyString => EmptyString
  | String c rest => String (ascii_lower_char c) (ascii_lower rest)
  end.

(** A scripted client in the manner of the test suite's [AsyncMock]: fixed
    answers, those of [add_url] by the number of earlier submissions (a
    [side_effect] list).  Its state is that number. *)
Record mock : Type := Mock {
  get_answer : string -> outcome Notebook.t;
  list_answer : outcome (list Notebook.t);
  create_answer : string -> outcome Notebook.t;
  add_url_answer : nat -> outcome Source.t;
  wait_answer : outcome unit;
  from_storage_answer : outcome unit;
  aenter_answer : outcome unit;
  aexit_answer : outcome unit
}.

Definition mock_client (m : mock) : handler nat :=
  fun R c n =>
    match c in call R return outcome R * nat with
    | NotebooksGet target => (get_answer m target, n)
    | NotebooksList => (list_answer m, n)
    | NotebooksCreate title => (create_answer m title, n)
    | SourcesAddUrl _ _ _ => (add_url_answer m n, S n)
    | SourcesWaitForSources _ _ _ => (wait_answer m, n)
    | FromStorage => (from_storage_answer m, n)
    | AEnter => (aenter_answer m, n)
    | AExit _ => (aexit_answer m, n)
    end.

(** The double of [test_main_wires_all_phases]: every call succeeds. *)
Definition happy_mock : mock :=
  {| get_answer := fun target => Ok (Notebook.Make "nb-real-id" target);
     list_answer := Ok [];
     create_answer := fun title => Ok (Notebook.Make "new-id-456" title);
     add_url_answer := fun _ => Ok (Source.Make "src-1");
     wait_answer := Ok tt;
     from_storage_answer := Ok tt;
     aenter_answer := Ok tt;
     aexit_answer := Ok tt |}.

(** The double of [test_resolve_notebook_finds_by_title_case_insensitive]. *)
Definition my_docs_mock : mock :=
  {| get_answer := fun _ => Err (raise_of RPCError "not found");
     list_answer := Ok [Notebook.Make "found-id-789" "My Docs"];
     create_answer := fun title => Ok (Notebook.Make "new-id-456" title);
     add_url_answer := fun _ => Ok (Source.Make "src-1");
     wait_answer := Ok tt;
     from_storage_answer := Ok tt;
     aenter_answer := Ok tt;
     aexit_answer := Ok tt |}.

(** A client whose lookup by id fails for a reason other than [RPCError]. *)
Definition broken_get_mock : mock :=
  {| get_answer := fun _ => Err (builtin_error "boom");
     list_answer := Ok [];
     create_answer := fun title => Ok (Notebook.Make "new-id-456" title);
     add_url_answer := fun _ => Ok (Source.Make "src-1");
     wait_answer := Ok tt;
     from_storage_answer := Ok tt;
     aenter_answer := Ok tt;
     aexit_answer := Ok tt |}.

(** The double of [test_wait_for_sources_phase2_handles_timeout], and the
    same with a failure of the wait that is not a timeout. *)
Definition wait_times_out_mock : mock :=
  {| get_answer := fun target => Ok (Notebook.Make "nb-real-id" target);
     list_answer := Ok [];
     create_answer := fun title => Ok (Notebook.Make "new-id-456" title);
     add_url_answer := fun _ => Ok (Source.Make "src-1");
     wait_answer := Err (raise_of TimeoutError "timed out");
     from_storage_answer := Ok tt;
     aenter_answer := Ok tt;
     aexit_answer := Ok tt |}.

Definition wait_breaks_mock : mock :=
  {| get_answer := fun target => Ok (Notebook.Make "nb-real-id" target);
     list_answer := Ok [];
     create_answer := fun title => Ok (Notebook.Make "new-id-456" title);
     add_url_answer := fun _ => Ok (Source.Make "src-1");
     wait_answer := Err (builtin_error "connection reset");
     from_storage_answer := Ok tt;
     aenter_answer := Ok tt;
     aexit_answer := Ok tt |}.

(** The double of [test_add_urls_phase1_partial_failure]: the second
    submission is rejected. *)
Definition second_rejected_mock : mock :=
  {| get_answer := fun target => Ok (Notebook.Make "nb-real-id" target);
     list_answer := Ok [];
     create_answer := fun title => Ok (Notebook.Make "new-id-456" title);
     add_url_answer :=
       fun n => if Nat.eqb n 1
                then Err (raise_of SourceAddError "bad url")
                else Ok (Source.Make "src-1");
     wait_answer := Ok tt;
     from_storage_answer := Ok tt;
     aenter_answer := Ok tt;
     aexit_answer := Ok tt |}.

Definition three_urls : list string :=
  ["https://a.com"; "https://bad.com"; "https://c.com"].

(** A client whose session fails to close: [__aexit__] raises. *)
Definition release_fails_mock : mock :=
  {| get_answer := fun target => Ok (Notebook.Make "nb-real-id" target);
     list_answer := Ok [];
     create_answer := fun title => Ok (Notebook.Make "new-id-456" title);
     add_url_answer := fun _ => Ok (Source.Make "src-1");
     wait_answer := Ok tt;
     from_storage_answer := Ok tt;
     aenter_answer := Ok tt;
     aexit_answer := Err (builtin_error "session close failed") |}.

(** ** Further readers and doubles *)

(** The session steps of a trace. *)
Definition is_release (ev : event) : bool :=
  match ev with
  | EvAExit _ _ => true
  | _ => false
  end.

Definition is_entered (ev : event) : bool :=
  match ev with
  | EvAEnter (Ok _) => true
  | _ => false
  end.

(** A call on the remote service, as opposed to a session step or a write
    to standard output. *)
Definition service_event (ev : event) : bool :=
  match ev with
  | EvGet _ _ | EvList _ | EvCreate _ _ | EvAddUrl _ _ _ _
  | EvWait _ _ _ _ => true
  | _ => false
  end.

(** The notebook each submission and each wait is addressed to. *)
Fixpoint targets_of (tr : list event) : list string :=
  match tr with
  | [] => []
  | EvAddUrl nb _ _ _ :: rest => nb :: targets_of rest
  | EvWait nb _ _ _ :: rest => nb :: targets_of rest
  | _ :: rest => targets_of rest
  end.

(** Clients that fail while the session is acquired. *)
Definition storage_fails_mock : mock :=
  {| get_answer := fun target => Ok (Notebook.Make "nb-real-id" target);
     list_answer := Ok [];
     create_answer := fun title => Ok (Notebook.Make "new-id-456" title);
     add_url_answer := fun _ => Ok (Source.Make "src-1");
     wait_answer := Ok tt;
     from_storage_answer := Err (builtin_error "not logged in");
     aenter_answer := Ok tt;
     aexit_answer := Ok tt |}.

Definition enter_fails_mock : mock :=
  {| get_answer := fun target => Ok (Notebook.Make "nb-real-id" target);
     list_answer := Ok [];
     create_answer := fun title => Ok (Notebook.Make "new-id-456" title);
     add_url_answer := fun _ => Ok (Source.Make "src-1");
     wait_answer := Ok tt;
     from_storage_answer := Ok tt;
     aenter_answer := Err (builtin_error "cannot connect");
     aexit_answer := Ok tt |}.

(** Clients whose lookup by id raises [RPCError] and whose listing, or
    creation, raises [RPCError] as well. *)
Definition list_fails_mock : mock :=
  {| get_answer := fun _ => Err (raise_of RPCError "not found");
     list_answer := Err (raise_of RPCError "listing failed");
     create_answer := fun title => Ok (Notebook.Make "new-id-456" title);
     add_url_answer := fun _ => Ok (Source.Make "src-1");
     wait_answer := Ok tt;
     from_storage_answer := Ok tt;
     aenter_answer := Ok tt;
     aexit_answer := Ok tt |}.

Definition create_fails_mock : mock :=
  {| get_answer := fun _ => Err (raise_of RPCError "not found");
     list_answer := Ok [Notebook.Make "other-id" "Other"];
     create_answer := fun _ => Err (raise_of RPCError "quota exceeded");
     add_url_answer := fun _ => Ok (Source.Make "src-1");
     wait_answer := Ok tt;
     from_storage_answer := Ok tt;
     aenter_answer := Ok tt;
     aexit_answer := Ok tt |}.

(** ** The shapes a run can take *)

(** A stretch of trace that submits the given URLs, in order, to the
    notebook [nb] without waiting. *)
Inductive submissions (nb : string) : list string -> list event -> Prop :=
| submissions_nil : submissions nb [] []
| submissions_cons (url : string) (urls : list string)
    (r : outcome Source.t) (tr : list event) :
    submissions nb urls tr ->
    submissions nb (url :: urls) (EvAddUrl nb url false r :: tr).

(** The trace of phase 2 on the ids [ids]: nothing when there is none, one
    batched wait with the default timeout otherwise. *)
Inductive waited (nb : string) (ids : list string) : list event -> Prop :=
| waited_none : ids = [] -> waited nb ids []
| waited_once (r : outcome unit) :
    ids <> [] -> waited nb ids [EvWait nb ids default_timeout r].

(** The exception the outer [except] of [main] reports after the block under
    [async with] was left with [e] and [__aexit__] answered [rx]. *)
Definition reported (e : exn) (rx : outcome unit) : exn :=
  match rx with
  | Ok _ => e
  | Err e' => e'
  end.

(** Standard input, exit status and trace of a run of [main], by the point
    at which the run stopped. *)
Inductive main_shape : stdin_content -> nat -> list event -> Prop :=
| shape_rejected (stdin : stdin_content) (e : exn) :
    input_error stdin = Some e ->
    main_shape stdin 1 [EvDump (error_result e)]
| shape_no_storage (target : string) (urls : list string) (e : exn) :
    main_shape (Json (Object (Some target) (Some urls))) 1
      [EvFromStorage (Err e); EvDump (error_result e)]
| shape_no_enter (target : string) (urls : list string) (e : exn) :
    main_shape (Json (Object (Some target) (Some urls))) 1
      [EvFromStorage (Ok tt); EvAEnter (Err e); EvDump (error_result e)]
| shape_unresolved (target : string) (urls : list string)
    (tr1 : list event) (e : exn) (rx : outcome unit) :
    forallb resolve_event tr1 = true ->
    main_shape (Json (Object (Some target) (Some urls))) 1
      (EvFromStorage (Ok tt) :: EvAEnter (Ok tt) :: tr1 ++
       [EvAExit (Some e) rx; EvDump (error_result (reported e rx))])
| shape_wait_failed (target : string) (urls : list string)
    (ids : string * string) (tr1 tr2 tr3 : list event) (e : exn)
    (rx : outcome unit) :
    forallb resolve_event tr1 = true ->
    submissions (fst ids) urls tr2 ->
    waited (fst ids) (added_of tr2) tr3 ->
    main_shape (Json (Object (Some target) (Some urls))) 1
      (EvFromStorage (Ok tt) :: EvAEnter (Ok tt) :: tr1 ++ tr2 ++ tr3 ++
       [EvAExit (Some e) rx; EvDump (error_result (reported e rx))])
| shape_reported (target : string) (urls : list string)
    (ids : string * string) (tr1 tr2 tr3 : list event) :
    forallb resolve_event tr1 = true ->
    submissions (fst ids) urls tr2 ->
    waited (fst ids) (added_of tr2) tr3 ->
    main_shape (Json (Object (Some target) (Some urls))) 0
      (EvFromStorage (Ok tt) :: EvAEnter (Ok tt) :: tr1 ++ tr2 ++ tr3 ++
       [EvDump (success_report ids tr2); EvAExit None (Ok tt)])
| shape_release_failed (target : string) (urls : list string)
    (ids : string * string) (tr1 tr2 tr3 : list event) (e : exn) :
    forallb resolve_event tr1 = true ->
    submissions (fst ids) urls tr2 ->
    waited (fst ids) (added_of tr2) tr3 ->
    main_shape (Json (Object (Some target) (Some urls))) 1
      (EvFromStorage (Ok tt) :: EvAEnter (Ok tt) :: tr1 ++ tr2 ++ tr3 ++
       [EvDump (success_report ids tr2); EvAExit None (Err e);
        EvDump (error_result e)]).

(** A client whose every submission raises [e]. *)
Definition failing_add_mock (e : exn) : mock :=
  {| get_answer := fun target => Ok (Notebook.Make "nb-real-id" target);
     list_answer := Ok [];
     create_answer := fun title => Ok (Notebook.Make "new-id-456" title);
     add_url_answer := fun _ => Err e;
     wait_answer := Ok tt;
     from_storage_answer := Ok tt;
     aenter_answer := Ok tt;
     aexit_answer := Ok tt |}.

(** ** Strings *)

Lemma prefix_append (s t : string) : prefix s (s ++ t)%string = true.
Proof.
  induction s as [| a s IH]; simpl.
  - now destruct t.
  - destruct (ascii_dec a a) as [_ | Hne]; [exact IH | now elim Hne].
Qed.

(** ** Running composed programs *)

Section Run.

Context {W : Type} (h : handler W).

Lemma result_eta (A : Type) (r : result W A) :
  Result (value r) (trace r) (world r) = r.
Proof. destruct r; reflexivity. Qed.

Lemma run_bind (A B : Type) (p : prog A) (f : A -> prog B) (w : W) :
  run h (bind p f) w =
  match value (run h p w) with
  | Ok a =>
      let r2 := run h (f a) (world (run h p w)) in
      Result (value r2) (trace (run h p w) ++ trace r2) (world r2)
  | Err e => Result (Err e) (trace (run h p w)) (world (run h p w))
  end.
Proof.
  revert w; induction p as [a | e | R c k IH | doc k IH]; intros w; simpl.
  - apply eq_sym, result_eta.
  - reflexivity.
  - destruct (h R c w) as [r w1]; simpl.
    rewrite IH. destruct (value (run h (k r) w1)); reflexivity.
  - rewrite IH. destruct (value (run h k w)); reflexivity.
Qed.

Lemma run_try_except (A : Type) (p : prog A) (c : exn -> prog A) (w : W) :
  run h (try_except p c) w =
  match value (run h p w) with
  | Ok a => run h p w
  | Err e =>
      let r2 := run h (c e) (world (run h p w)) in
      Result (value r2) (trace (run h p w) ++ trace r2) (world r2)
  end.
Proof.
  revert w; induction p as [a | e | R c0 k IH | doc k IH]; intros w; simpl.
  - reflexivity.
  - apply eq_sym, result_eta.
  - destruct (h R c0 w) as [r w1]; simpl.
    rewrite IH. destruct (value (run h (k r) w1)) eqn:E; simpl.
    + rewrite E. reflexivity.
    + reflexivity.
  - rewrite IH. destruct (value (run h k w)) eqn:E; simpl.
    + rewrite E. reflexivity.
    + reflexivity.
Qed.

Lemma run_aexit (A : Type) (p : prog A) (w : W) :
  run h (aexit p) w =
  let r1 := run h p w in
  let (r, w2) := h _ (AExit (in_flight (value r1))) (world r1) in
  Result (match r with Ok _ => value r1 | Err e' => Err e' end)
         (trace r1 ++ [EvAExit (in_flight (value r1)) r]) w2.
Proof.
  revert w; induction p as [a | e | R c k IH | doc k IH]; intros w; simpl.
  - destruct (h unit (AExit None) w) as [[u | e'] w2]; reflexivity.
  - destruct (h unit (AExit (Some e)) w) as [[u | e'] w2]; reflexivity.
  - destruct (h R c w) as [r w1]; simpl.
    rewrite IH; simpl.
    destruct (h unit _ (world (run h (k r) w1))) as [r' w2]; reflexivity.
  - rewrite IH; simpl.
    destruct (h unit _ (world (run h k w))) as [r' w2]; reflexivity.
Qed.

Lemma run_await (R : Type) (c : call R) (w : W) :
  run h (await c) w =
  Result (fst (h _ c w)) [log c (fst (h _ c w))] (snd (h _ c w)).
Proof.
  unfold await; simpl. destruct (h R c w) as [[v | e] w1]; reflexivity.
Qed.

Lemma run_lift (A : Type) (o : outcome A) (w : W) :
  run h (lift o) w = Result o [] w.
Proof. destruct o; reflexivity. Qed.

End Run.

(** ** Phase 1 *)

Section Phase1.

Context {W : Type} (h : handler W).

Lemma add_url_step_run (notebook_id url : string)
  (added_source_ids : list string) (failures : list (string * string))
  (w : W) :
  run h (add_url_step notebook_id (added_source_ids, failures) url) w =
  let (r, w1) := h _ (SourcesAddUrl notebook_id url false) w in
  Result
    (Ok match r with
        | Ok source => (added_source_ids ++ [Source.id source], failures)
        | Err e => (added_source_ids, failures ++ [(url, failure_message e)])
        end)
    [EvAddUrl notebook_id url false r] w1.
Proof.
  unfold add_url_step. rewrite run_try_except, run_bind, run_await.
  destruct (h _ (SourcesAddUrl notebook_id url false) w) as [[source | e] w1];
    simpl; [reflexivity |].
  unfold failure_message.
  destruct (isinstance e SourceAddError), (isinstance e RateLimitError);
    reflexivity.
Qed.

Lemma add_urls_loop_run (notebook_id : string) (urls : list string) :
  forall (acc : list string * list (string * string)) (w : W),
  run h (add_urls_loop notebook_id urls acc) w =
  let (evs, w') := submit_in_turn h notebook_id urls w in
  Result (Ok (fst acc ++ added_of evs, snd acc ++ failed_of evs)) evs w'.
Proof.
  induction urls as [| url rest IH]; intros [added_source_ids failures] w.
  - simpl. now rewrite !app_nil_r.
  - cbn [add_urls_loop submit_in_turn].
    rewrite run_bind, add_url_step_run.
    destruct (h _ (SourcesAddUrl notebook_id url false) w) as [r w1]; simpl.
    rewrite IH.
    destruct (submit_in_turn h notebook_id rest w1) as [evs w2]; simpl.
    destruct r as [source | e]; simpl; now rewrite <- app_assoc.
Qed.

Lemma add_urls_phase1_run (notebook_id : string) (urls : list string)
  (w : W) :
  run h (add_urls_phase1 notebook_id urls) w =
  Result
    (Ok (added_of (fst (submit_in_turn h notebook_id urls w)),
         failed_of (fst (submit_in_turn h notebook_id urls w))))
    (fst (submit_in_turn h notebook_id urls w))
    (snd (submit_in_turn h notebook_id urls w)).
Proof.
  unfold add_urls_phase1. rewrite add_urls_loop_run.
  now destruct (submit_in_turn h notebook_id urls w).
Qed.

Lemma submit_in_turn_partition (notebook_id : string) (urls : list string) :
  forall w : W,
  List.length (added_of (fst (submit_in_turn h notebook_id urls w))) +
  List.length (failed_of (fst (submit_in_turn h notebook_id urls w))) =
  List.length urls.
Proof.
  induction urls as [| url rest IH]; intros w; simpl; [reflexivity |].
  destruct (h _ (SourcesAddUrl notebook_id url false) w) as [r w1].
  specialize (IH w1).
  destruct (submit_in_turn h notebook_id rest w1) as [evs w2]; simpl in *.
  destruct r; simpl; lia.
Qed.

Lemma submit_in_turn_submitted (notebook_id : string) (urls : list string) :
  forall w : W,
  submitted_of (fst (submit_in_turn h notebook_id urls w)) = urls.
Proof.
  induction urls as [| url rest IH]; intros w; simpl; [reflexivity |].
  destruct (h _ (SourcesAddUrl notebook_id url false) w) as [r w1].
  specialize (IH w1).
  destruct (submit_in_turn h notebook_id rest w1) as [evs w2]; simpl in *.
  now rewrite IH.
Qed.

End Phase1.

(** C1. For every list of URLs and every behaviour of the client, phase 1
    completes with a pair of lists, and the number of added source ids plus
    the number of recorded failures equals the number of URLs. *)
Theorem phase1_partition_total :
  forall (W : Type) (h : handler W) (w : W) (notebook_id : string)
         (urls : list string),
  exists (added_source_ids : list string) (failures : list (string * string)),
    value (run h (add_urls_phase1 notebook_id urls) w) =
      Ok (added_source_ids, failures) /\
    List.length added_source_ids + List.length failures = List.length urls.
Proof.
  intros W h w notebook_id urls.
  rewrite add_urls_phase1_run; simpl.
  eexists; eexists; split; [reflexivity |].
  apply submit_in_turn_partition.
Qed.

Section Phase1Trace.

Context {W : Type} (h : handler W).

Lemma submit_in_turn_zip (notebook_id : string) (urls : list string) :
  forall w : W,
  let evs := fst (submit_in_turn h notebook_id urls w) in
  evs = map (fun p => EvAddUrl notebook_id (fst p) false (snd p))
            (combine urls (outcomes_of evs)) /\
  List.length (outcomes_of evs) = List.length urls.
Proof.
  induction urls as [| url rest IH]; intros w; simpl; [now split |].
  destruct (h _ (SourcesAddUrl notebook_id url false) w) as [r w1].
  specialize (IH w1).
  destruct (submit_in_turn h notebook_id rest w1) as [evs w2]; simpl in *.
  destruct IH as [IH1 IH2]. split; [now rewrite <- IH1 | now rewrite IH2].
Qed.

Lemma submit_in_turn_length (notebook_id : string) (urls : list string) :
  forall w : W,
  List.length (fst (submit_in_turn h notebook_id urls w)) = List.length urls.
Proof.
  induction urls as [| url rest IH]; intros w; simpl; [reflexivity |].
  destruct (h _ (SourcesAddUrl notebook_id url false) w) as [r w1].
  specialize (IH w1).
  destruct (submit_in_turn h notebook_id rest w1) as [evs w2]; simpl in *.
  now rewrite IH.
Qed.

End Phase1Trace.

(** C2. Whatever the client answers, phase 1 makes one submission call per
    URL of the input, in input order, so a failure never stops the URLs after
    it from being attempted; it returns normally; and the failures it returns
    are those of the calls that raised, each with the message of the
    service when the exception is a [SourceAddError] or a [RateLimitError]
    and with that message behind the prefix ["Unexpected error: "]
    otherwise.  The two kinds of failure read differently in the output
    whenever the message of the service does not itself begin with that
    prefix. *)
Theorem phase1_failure_does_not_abort :
  forall (W : Type) (h : handler W) (w : W) (notebook_id : string)
         (urls : list string),
  let res := run h (add_urls_phase1 notebook_id urls) w in
  submitted_of (trace res) = urls /\
  List.length (trace res) = List.length urls /\
  value res = Ok (added_of (trace res), failed_of (trace res)) /\
  (forall e : exn,
     failure_message e =
     if isinstance e SourceAddError || isinstance e RateLimitError
     then str e
     else ("Unexpected error: " ++ str e)%string) /\
  (forall e : exn,
     isinstance e SourceAddError || isinstance e RateLimitError = false ->
     prefix "Unexpected error: " (failure_message e) = true) /\
  (forall e1 e2 : exn,
     isinstance e1 SourceAddError || isinstance e1 RateLimitError = true ->
     isinstance e2 SourceAddError || isinstance e2 RateLimitError = false ->
     prefix "Unexpected error: " (str e1) = false ->
     failure_message e1 <> failure_message e2).
Proof.
  intros W h w notebook_id urls res; subst res.
  rewrite add_urls_phase1_run; simpl.
  split; [apply submit_in_turn_submitted |].
  split; [apply submit_in_turn_length |].
  split; [reflexivity |].
  split; [| split].
  - intros e. unfold failure_message.
    destruct (isinstance e SourceAddError), (isinstance e RateLimitError);
      reflexivity.
  - intros e He. unfold failure_message.
    destruct (isinstance e SourceAddError), (isinstance e RateLimitError);
      try discriminate He.
    apply prefix_append.
  - intros e1 e2 H1 H2 Hfree Heq.
    assert (E1 : failure_message e1 = str e1).
    { unfold failure_message.
      destruct (isinstance e1 SourceAddError), (isinstance e1 RateLimitError);
        try discriminate H1; reflexivity. }
    assert (E2 : failure_message e2 = ("Unexpected error: " ++ str e2)%string).
    { unfold failure_message.
      destruct (isinstance e2 SourceAddError), (isinstance e2 RateLimitError);
        try discriminate H2; reflexivity. }
    rewrite E1, E2 in Heq. rewrite Heq, prefix_append in Hfree.
    discriminate Hfree.
Qed.

(** The partial failure of the test suite: three URLs, the second rejected;
    the third is still submitted, two sources are added and one failure is
    recorded with the message of the service, which reads differently from
    an unexpected failure with the same message. *)
Lemma phase1_second_of_three_fails :
  let res :=
    run (mock_client second_rejected_mock)
        (add_urls_phase1 "nb-id" three_urls) 0 in
  submitted_of (trace res) = three_urls /\
  value res = Ok (["src-1"; "src-1"], [("https://bad.com", "bad url")]) /\
  prefix "Unexpected error: " (failure_message (builtin_error "boom")) = true /\
  failure_message (raise_of SourceAddError "bad url") <>
  failure_message (builtin_error "bad url").
Proof.
  destruct (phase1_failure_does_not_abort nat
              (mock_client second_rejected_mock) 0 "nb-id" three_urls)
    as (H1 & _ & H3 & _ & H5 & H6).
  split; [exact H1 |].
  split; [exact H3 |].
  split; [exact (H5 (builtin_error "boom") eq_refl) |].
  exact (H6 (raise_of SourceAddError "bad url") (builtin_error "bad url")
            eq_refl eq_refl eq_refl).
Defined.

(** The prefix alone does not keep the two kinds of failure apart: a
    [SourceAddError] whose message is ["Unexpected error: fake"] and an
    exception of no recognised class whose message is ["fake"] leave phase 1
    with the same result. *)
Lemma phase1_categories_can_coincide :
  let rejected := raise_of SourceAddError "Unexpected error: fake" in
  let unexpected := builtin_error "fake" in
  isinstance rejected SourceAddError || isinstance rejected RateLimitError
    = true /\
  isinstance unexpected SourceAddError || isinstance unexpected RateLimitError
    = false /\
  value (run (mock_client (failing_add_mock rejected))
           (add_urls_phase1 "nb-id" ["https://example.com"]) 0) =
    Ok ([], [("https://example.com", "Unexpected error: fake")]) /\
  value (run (mock_client (failing_add_mock unexpected))
           (add_urls_phase1 "nb-id" ["https://example.com"]) 0) =
    Ok ([], [("https://example.com", "Unexpected error: fake")]) /\
  ~ (forall e1 e2 : exn,
       isinstance e1 SourceAddError || isinstance e1 RateLimitError = true ->
       isinstance e2 SourceAddError || isinstance e2 RateLimitError = false ->
       failure_message e1 <> failure_message e2).
Proof.
  cbv zeta. repeat (split; [reflexivity |]).
  intros H.
  apply (H (raise_of SourceAddError "Unexpected error: fake")
           (builtin_error "fake")); reflexivity.
Qed.

(** C6. Phase 1 is strictly sequential: its trace and the state it leaves
    the client in are those of [submit_in_turn], where the call for a URL is
    answered before the call for the next URL is made; the calls are the
    input URLs in input order, one outcome each; and the two lists returned
    follow the order of the trace, hence of the input. *)
Theorem phase1_strictly_sequential :
  forall (W : Type) (h : handler W) (w : W) (notebook_id : string)
         (urls : list string),
  let res := run h (add_urls_phase1 notebook_id urls) w in
  trace res = fst (submit_in_turn h notebook_id urls w) /\
  world res = snd (submit_in_turn h notebook_id urls w) /\
  trace res = map (fun p => EvAddUrl notebook_id (fst p) false (snd p))
                  (combine urls (outcomes_of (trace res))) /\
  List.length (outcomes_of (trace res)) = List.length urls /\
  value res = Ok (added_of (trace res), failed_of (trace res)).
Proof.
  intros W h w notebook_id urls res; subst res.
  rewrite add_urls_phase1_run; simpl.
  split; [reflexivity |]. split; [reflexivity |].
  destruct (submit_in_turn_zip h notebook_id urls w) as [Hz Hl].
  split; [exact Hz |]. split; [exact Hl | reflexivity].
Qed.

(** ** Notebook resolution *)

Section Resolve.

Variable lower : string -> string.
Context {W : Type} (h : handler W).

Lemma find_by_title_some (target_lower : string)
  (pre post : list Notebook.t) (nb : Notebook.t) :
  (forall x, In x pre -> lower (Notebook.title x) <> target_lower) ->
  lower (Notebook.title nb) = target_lower ->
  find_by_title lower target_lower (pre ++ nb :: post) =
  Some (Notebook.id nb, Notebook.title nb).
Proof.
  intros Hpre Hnb. induction pre as [| x pre IH]; simpl.
  - apply String.eqb_eq in Hnb. now rewrite Hnb.
  - destruct (String.eqb_spec (lower (Notebook.title x)) target_lower)
      as [Heq | _].
    + exfalso. apply (Hpre x); [now left | exact Heq].
    + apply IH. intros y Hy. apply Hpre. now right.
Qed.

Lemma find_by_title_none (target_lower : string)
  (notebooks : list Notebook.t) :
  find_by_title lower target_lower notebooks = None <->
  (forall x, In x notebooks -> lower (Notebook.title x) <> target_lower).
Proof.
  induction notebooks as [| x rest IH]; simpl.
  - split; [intros _ y [] | reflexivity].
  - destruct (String.eqb_spec (lower (Notebook.title x)) target_lower)
      as [Heq | Hne].
    + split; [discriminate |]. intros Hall. exfalso.
      apply (Hall x); [now left | exact Heq].
    + rewrite IH. split.
      * intros Hall y [<- | Hy]; [exact Hne | now apply Hall].
      * intros Hall y Hy. apply Hall. now right.
Qed.

Lemma search_or_create_run (target : string) (w : W) :
  run h (search_or_create lower target) w =
  let (r, w1) := h _ NotebooksList w in
  match r with
  | Err e => Result (Err e) [EvList r] w1
  | Ok notebooks =>
      match find_by_title lower (lower target) notebooks with
      | Some found => Result (Ok found) [EvList r] w1
      | None =>
          let (r', w2) := h _ (NotebooksCreate target) w1 in
          Result
            match r' with
            | Ok nb => Ok (Notebook.id nb, Notebook.title nb)
            | Err e => Err e
            end
            [EvList r; EvCreate target r'] w2
      end
  end.
Proof.
  unfold search_or_create. rewrite run_bind, run_await.
  destruct (h _ NotebooksList w) as [[notebooks | e] w1]; simpl;
    [| reflexivity].
  destruct (find_by_title lower (lower target) notebooks) as [found |];
    simpl; [reflexivity |].
  destruct (h _ (NotebooksCreate target) w1) as [[nb | e] w2]; reflexivity.
Qed.

Lemma resolve_notebook_run (target : string) (w : W) :
  run h (resolve_notebook lower target) w =
  let (r, w1) := h _ (NotebooksGet target) w in
  match r with
  | Ok nb => Result (Ok (Notebook.id nb, Notebook.title nb)) [EvGet target r] w1
  | Err e =>
      if isinstance e RPCError
      then
        let r2 := run h (search_or_create lower target) w1 in
        Result (value r2) (EvGet target r :: trace r2) (world r2)
      else Result (Err e) [EvGet target r] w1
  end.
Proof.
  unfold resolve_notebook.
  rewrite run_bind, run_try_except, run_bind, run_await.
  destruct (h _ (NotebooksGet target) w) as [[nb | e] w1]; simpl;
    [reflexivity |].
  destruct (isinstance e RPCError); reflexivity.
Qed.

End Resolve.

(** ** Phase 2 *)

Section Phase2.

Context {W : Type} (h : handler W).

Lemma wait_for_sources_phase2_run (notebook_id : string)
  (source_ids : list string) (timeout : float) (w : W) :
  run h (wait_for_sources_phase2 notebook_id source_ids timeout) w =
  match source_ids with
  | [] => Result (Ok tt) [] w
  | _ :: _ =>
      let (r, w1) :=
        h _ (SourcesWaitForSources notebook_id source_ids timeout) w in
      Result
        match r with
        | Ok _ => Ok tt
        | Err e => if isinstance e TimeoutError then Ok tt else Err e
        end
        [EvWait notebook_id source_ids timeout r] w1
  end.
Proof.
  destruct source_ids as [| source_id rest]; [reflexivity |].
  unfold wait_for_sources_phase2. rewrite run_try_except, run_await.
  destruct (h _ _ w) as [[[] | e] w1]; simpl; [reflexivity |].
  destruct (isinstance e TimeoutError); reflexivity.
Qed.

End Phase2.

(** ** The whole run *)

Section Main.

Variable lower : string -> string.
Context {W : Type} (h : handler W).

Lemma session_body_run (notebook_target : string) (urls : list string)
  (w : W) :
  run h (session_body lower notebook_target urls) w =
  let r1 := run h (resolve_notebook lower notebook_target) w in
  match value r1 with
  | Err e => Result (Err e) (trace r1) (world r1)
  | Ok ids =>
      let r2 := run h (add_urls_phase1 (fst ids) urls) (world r1) in
      let r3 :=
        run h (wait_for_sources_phase2 (fst ids) (added_of (trace r2))
                 default_timeout) (world r2) in
      match value r3 with
      | Err e => Result (Err e) (trace r1 ++ trace r2 ++ trace r3) (world r3)
      | Ok _ =>
          Result (Ok tt)
            (trace r1 ++ trace r2 ++ trace r3 ++
             [EvDump (success_report ids (trace r2))])
            (world r3)
      end
  end.
Proof.
  unfold session_body. rewrite run_bind.
  destruct (value (run h (resolve_notebook lower notebook_target) w))
    as [[notebook_id notebook_title] | e]; [| reflexivity].
  cbv zeta. cbn [fst snd]. rewrite run_bind.
  set (r2 := run h (add_urls_phase1 notebook_id urls) _).
  assert (E2 : value r2 = Ok (added_of (trace r2), failed_of (trace r2)))
    by (subst r2; now rewrite add_urls_phase1_run).
  rewrite E2. cbv zeta. rewrite run_bind.
  destruct (value (run h (wait_for_sources_phase2 notebook_id _ _) _))
    as [[] | e]; [| reflexivity].
  reflexivity.
Qed.

End Main.

(** ** Traces of the parts *)

Ltac event_induction tr :=
  let ev := fresh "ev" in
  let rest := fresh "rest" in
  let IH := fresh "IH" in
  induction tr as [| ev rest IH]; simpl;
  [ reflexivity
  | destruct ev as [? r | r | ? r | ? ? ? r | ? ? ? r | r | r | ? r | ?];
    simpl; try (destruct r; simpl); now rewrite ?IH ].

Lemma added_of_app (tr1 tr2 : list event) :
  added_of (tr1 ++ tr2) = added_of tr1 ++ added_of tr2.
Proof. event_induction tr1. Qed.

Lemma failed_of_app (tr1 tr2 : list event) :
  failed_of (tr1 ++ tr2) = failed_of tr1 ++ failed_of tr2.
Proof. event_induction tr1. Qed.

Lemma submitted_of_app (tr1 tr2 : list event) :
  submitted_of (tr1 ++ tr2) = submitted_of tr1 ++ submitted_of tr2.
Proof. event_induction tr1. Qed.

Lemma waits_of_app (tr1 tr2 : list event) :
  waits_of (tr1 ++ tr2) = waits_of tr1 ++ waits_of tr2.
Proof. event_induction tr1. Qed.

Lemma stdout_of_app (tr1 tr2 : list event) :
  stdout_of (tr1 ++ tr2) = stdout_of tr1 ++ stdout_of tr2.
Proof. event_induction tr1. Qed.

Lemma calls_of_app (tr1 tr2 : list event) :
  calls_of (tr1 ++ tr2) = calls_of tr1 ++ calls_of tr2.
Proof. event_induction tr1. Qed.

(** A stretch of resolution events holds no submission, wait or write. *)
Lemma resolve_events_quiet (tr : list event) :
  forallb resolve_event tr = true ->
  added_of tr = [] /\ failed_of tr = [] /\ submitted_of tr = [] /\
  waits_of tr = [] /\ stdout_of tr = [].
Proof.
  induction tr as [| ev rest IH]; simpl; [now repeat split |].
  destruct ev; simpl; try discriminate; exact IH.
Qed.

(** A stretch of submissions holds no wait and no write. *)
Lemma submit_in_turn_quiet {W : Type} (h : handler W) (notebook_id : string)
  (urls : list string) :
  forall w : W,
  waits_of (fst (submit_in_turn h notebook_id urls w)) = [] /\
  stdout_of (fst (submit_in_turn h notebook_id urls w)) = [].
Proof.
  induction urls as [| url rest IH]; intros w; simpl; [now split |].
  destruct (h _ (SourcesAddUrl notebook_id url false) w) as [r w1].
  specialize (IH w1).
  destruct (submit_in_turn h notebook_id rest w1) as [evs w2]; simpl in *.
  exact IH.
Qed.

Lemma search_or_create_events (lower : string -> string) {W : Type}
  (h : handler W) (target : string) (w : W) :
  forallb resolve_event (trace (run h (search_or_create lower target) w))
  = true.
Proof.
  rewrite search_or_create_run.
  destruct (h _ NotebooksList w) as [[notebooks | e] w1]; [| reflexivity].
  destruct (find_by_title lower (lower target) notebooks); [reflexivity |].
  now destruct (h _ (NotebooksCreate target) w1).
Qed.

Lemma resolve_notebook_events (lower : string -> string) {W : Type}
  (h : handler W) (target : string) (w : W) :
  forallb resolve_event (trace (run h (resolve_notebook lower target) w))
  = true.
Proof.
  rewrite resolve_notebook_run.
  destruct (h _ (NotebooksGet target) w) as [[nb | e] w1]; [reflexivity |].
  destruct (isinstance e RPCError); [| reflexivity].
  simpl. apply search_or_create_events.
Qed.

Section MainRun.

Variable lower : string -> string.
Context {W : Type} (h : handler W).

(** Standard input that fails before the session: one write, nothing else. *)
Lemma main_run_rejected (stdin : stdin_content) (e : exn) (w : W) :
  input_error stdin = Some e ->
  run h (main lower stdin) w = Result (Ok 1) [EvDump (error_result e)] w.
Proof.
  unfold input_error, main. intros He.
  destruct stdin as [msg | [k | [target |] [urls |]]]; simpl in He;
    inversion He; subst; reflexivity.
Qed.

(** A well-formed request: the session is acquired, the body runs, the
    session is released, and whatever exception is then in flight reaches the
    outer [except]. *)
Lemma main_run_request (target : string) (urls : list string) (w : W) :
  run h (main lower (Json (Object (Some target) (Some urls)))) w =
  let (r0, w0) := h _ FromStorage w in
  match r0 with
  | Err e => Result (Ok 1) [EvFromStorage r0; EvDump (error_result e)] w0
  | Ok _ =>
      let (ra, wa) := h _ AEnter w0 in
      match ra with
      | Err e =>
          Result (Ok 1)
            [EvFromStorage r0; EvAEnter ra; EvDump (error_result e)] wa
      | Ok _ =>
          let rb := run h (session_body lower target urls) wa in
          let (rx, wx) := h _ (AExit (in_flight (value rb))) (world rb) in
          let released :=
            EvFromStorage r0 :: EvAEnter ra ::
            trace rb ++ [EvAExit (in_flight (value rb)) rx] in
          match rx, value rb with
          | Ok _, Ok _ => Result (Ok 0) released wx
          | Ok _, Err e =>
              Result (Ok 1) (released ++ [EvDump (error_result e)]) wx
          | Err e', _ =>
              Result (Ok 1) (released ++ [EvDump (error_result e')]) wx
          end
      end
  end.
Proof.
  change (main lower (Json (Object (Some target) (Some urls))))
    with (try_except
            (await FromStorage ;;
             await AEnter ;;
             aexit (session_body lower target urls) ;;
             Ret 0)
            (fun e => Dump (error_result e) (Ret 1))).
  rewrite run_try_except, run_bind, run_await.
  destruct (h _ FromStorage w) as [[[] | e] w0];
    cbn [fst snd value trace world log]; [| reflexivity].
  rewrite run_bind, run_await.
  destruct (h _ AEnter w0) as [[[] | e] wa];
    cbn [fst snd value trace world log]; [| reflexivity].
  rewrite run_bind, run_aexit. cbv zeta.
  destruct (h _ (AExit _) _) as [[[] | e'] wx];
    cbn [fst snd value trace world log].
  - destruct (value (run h (session_body lower target urls) wa))
      as [[] | e]; cbn [run value trace world app];
      [now rewrite app_nil_r | reflexivity].
  - reflexivity.
Qed.

End MainRun.

(** ** Resolution policy *)

(** The calls of a resolution come in the order get-by-id, listing,
    creation, and a step that found the notebook ends it. *)
Lemma resolve_notebook_trace_order :
  forall (lower : string -> string) (W : Type) (h : handler W) (w : W)
         (target : string),
  let res := run h (resolve_notebook lower target) w in
  ((exists r1, trace res = [EvGet target r1]) \/
   (exists r1 r2, trace res = [EvGet target r1; EvList r2]) \/
   (exists r1 r2 r3,
      trace res = [EvGet target r1; EvList r2; EvCreate target r3])) /\
  (forall nb rest,
     trace res = EvGet target (Ok nb) :: rest ->
     rest = [] /\ value res = Ok (Notebook.id nb, Notebook.title nb)) /\
  (forall r1 pre nb post rest,
     trace res = EvGet target r1 :: EvList (Ok (pre ++ nb :: post)) :: rest ->
     (forall x, In x pre -> lower (Notebook.title x) <> lower target) ->
     lower (Notebook.title nb) = lower target ->
     rest = [] /\ value res = Ok (Notebook.id nb, Notebook.title nb)) /\
  (forall r1 r2 title r3 rest,
     trace res = EvGet target r1 :: EvList r2 :: EvCreate title r3 :: rest ->
     exists e notebooks,
       r1 = Err e /\ isinstance e RPCError = true /\
       r2 = Ok notebooks /\
       (forall x, In x notebooks ->
                  lower (Notebook.title x) <> lower target) /\
       title = target /\ rest = [] /\
       value res = match r3 with
                   | Ok nb => Ok (Notebook.id nb, Notebook.title nb)
                   | Err e' => Err e'
                   end).
Proof.
  intros lower W h w target res; subst res.
  rewrite resolve_notebook_run.
  destruct (h _ (NotebooksGet target) w) as [[nb0 | e] w1].
  { cbn [trace value]. split; [left; eexists; reflexivity |].
    split; [| split].
    - intros nb rest H. inversion H; subst. now split.
    - intros r1 pre nb post rest H. inversion H.
    - intros r1 r2 title r3 rest H. inversion H. }
  destruct (isinstance e RPCError) eqn:Hrpc.
  2:{ cbn [trace value]. split; [left; eexists; reflexivity |].
      split; [| split].
      - intros nb rest H. inversion H.
      - intros r1 pre nb post rest H. inversion H.
      - intros r1 r2 title r3 rest H. inversion H. }
  cbv zeta. rewrite search_or_create_run.
  destruct (h _ NotebooksList w1) as [[notebooks | e1] w2].
  2:{ cbn [trace value]. split; [right; left; do 2 eexists; reflexivity |].
      split; [| split].
      - intros nb rest H. inversion H.
      - intros r1 pre nb post rest H. inversion H.
      - intros r1 r2 title r3 rest H. inversion H. }
  destruct (find_by_title lower (lower target) notebooks) as [found |] eqn:Hf.
  { cbn [trace value]. split; [right; left; do 2 eexists; reflexivity |].
    split; [| split].
    - intros nb rest H. inversion H.
    - intros r1 pre nb post rest H Hpre Hnb. inversion H; subst.
      rewrite (find_by_title_some lower (lower target) pre post nb Hpre Hnb)
        in Hf.
      inversion Hf; subst. now split.
    - intros r1 r2 title r3 rest H. inversion H. }
  destruct (h _ (NotebooksCreate target) w2) as [r3' w3].
  cbn [trace value].
  split; [right; right; do 3 eexists; reflexivity |].
  split; [| split].
  - intros nb rest H. inversion H.
  - intros r1 pre nb post rest H Hpre Hnb. inversion H; subst.
    rewrite (find_by_title_some lower (lower target) pre post nb Hpre Hnb)
      in Hf.
    discriminate Hf.
  - intros r1 r2 title r3 rest H. inversion H; subst.
    exists e, notebooks. repeat split; try reflexivity; try assumption.
    now apply find_by_title_none.
Qed.

(** The run of a resolution, by the answers of the client. *)
Lemma resolve_notebook_by_answers :
  forall (lower : string -> string) (W : Type) (h : handler W) (w : W)
         (target : string),
  let res := run h (resolve_notebook lower target) w in
  (forall nb w1,
     h _ (NotebooksGet target) w = (Ok nb, w1) ->
     res = Result (Ok (Notebook.id nb, Notebook.title nb))
             [EvGet target (Ok nb)] w1) /\
  (forall e w1 notebooks w2 pre nb post,
     h _ (NotebooksGet target) w = (Err e, w1) ->
     isinstance e RPCError = true ->
     h _ NotebooksList w1 = (Ok notebooks, w2) ->
     notebooks = pre ++ nb :: post ->
     (forall x, In x pre -> lower (Notebook.title x) <> lower target) ->
     lower (Notebook.title nb) = lower target ->
     res = Result (Ok (Notebook.id nb, Notebook.title nb))
             [EvGet target (Err e); EvList (Ok notebooks)] w2) /\
  (forall e w1 notebooks w2 r3 w3,
     h _ (NotebooksGet target) w = (Err e, w1) ->
     isinstance e RPCError = true ->
     h _ NotebooksList w1 = (Ok notebooks, w2) ->
     (forall x, In x notebooks ->
                lower (Notebook.title x) <> lower target) ->
     h _ (NotebooksCreate target) w2 = (r3, w3) ->
     res = Result
             match r3 with
             | Ok nb => Ok (Notebook.id nb, Notebook.title nb)
             | Err e' => Err e'
             end
             [EvGet target (Err e); EvList (Ok notebooks);
              EvCreate target r3] w3) /\
  (forall e w1,
     h _ (NotebooksGet target) w = (Err e, w1) ->
     isinstance e RPCError = true ->
     exists rest,
       trace res =
       EvGet target (Err e) :: EvList (fst (h _ NotebooksList w1)) :: rest).
Proof.
  intros lower W h w target res; subst res.
  split; [| split; [| split]].
  - intros nb w1 Hget. now rewrite resolve_notebook_run, Hget.
  - intros e w1 notebooks w2 pre nb post Hget Hrpc Hlist -> Hpre Hnb.
    rewrite resolve_notebook_run, Hget, Hrpc. cbv zeta.
    rewrite search_or_create_run, Hlist.
    now rewrite (find_by_title_some lower (lower target) pre post nb Hpre Hnb).
  - intros e w1 notebooks w2 r3 w3 Hget Hrpc Hlist Hnone Hcreate.
    rewrite resolve_notebook_run, Hget, Hrpc. cbv zeta.
    rewrite search_or_create_run, Hlist.
    apply find_by_title_none in Hnone. rewrite Hnone, Hcreate.
    now destruct r3.
  - intros e w1 Hget Hrpc.
    rewrite resolve_notebook_run, Hget, Hrpc. cbv zeta.
    rewrite search_or_create_run.
    destruct (h _ NotebooksList w1) as [[notebooks | e'] w2];
      [| now exists []].
    destruct (find_by_title lower (lower target) notebooks);
      [now exists [] |].
    destruct (h _ (NotebooksCreate target) w2) as [r3 w3].
    now eexists.
Qed.

(** C3. For every target string and every behaviour of the client,
    resolution attempts get-by-id, then the listing, then create, in that
    order and each at most once.  When get-by-id succeeds nothing else is
    attempted and its notebook is returned.  When get-by-id raises
    [RPCError] the listing is requested; the first notebook in listing order
    whose lowercased title equals the lowercased target is then returned and
    nothing is created.  When no listed title matches, a notebook is created
    with the target verbatim as its title and the created notebook is
    returned; a notebook is created in no other case. *)
Theorem resolve_notebook_first_success_wins :
  forall (lower : string -> string) (W : Type) (h : handler W) (w : W)
         (target : string),
  let res := run h (resolve_notebook lower target) w in
  ((exists r1, trace res = [EvGet target r1]) \/
   (exists r1 r2, trace res = [EvGet target r1; EvList r2]) \/
   (exists r1 r2 r3,
      trace res = [EvGet target r1; EvList r2; EvCreate target r3])) /\
  (forall nb rest,
     trace res = EvGet target (Ok nb) :: rest ->
     rest = [] /\ value res = Ok (Notebook.id nb, Notebook.title nb)) /\
  (forall r1 pre nb post rest,
     trace res = EvGet target r1 :: EvList (Ok (pre ++ nb :: post)) :: rest ->
     (forall x, In x pre -> lower (Notebook.title x) <> lower target) ->
     lower (Notebook.title nb) = lower target ->
     rest = [] /\ value res = Ok (Notebook.id nb, Notebook.title nb)) /\
  (forall r1 r2 title r3 rest,
     trace res = EvGet target r1 :: EvList r2 :: EvCreate title r3 :: rest ->
     exists e notebooks,
       r1 = Err e /\ isinstance e RPCError = true /\
       r2 = Ok notebooks /\
       (forall x, In x notebooks ->
                  lower (Notebook.title x) <> lower target) /\
       title = target /\ rest = [] /\
       value res = match r3 with
                   | Ok nb => Ok (Notebook.id nb, Notebook.title nb)
                   | Err e' => Err e'
                   end) /\
  (forall nb w1,
     h _ (NotebooksGet target) w = (Ok nb, w1) ->
     res = Result (Ok (Notebook.id nb, Notebook.title nb))
             [EvGet target (Ok nb)] w1) /\
  (forall e w1 notebooks w2 pre nb post,
     h _ (NotebooksGet target) w = (Err e, w1) ->
     isinstance e RPCError = true ->
     h _ NotebooksList w1 = (Ok notebooks, w2) ->
     notebooks = pre ++ nb :: post ->
     (forall x, In x pre -> lower (Notebook.title x) <> lower target) ->
     lower (Notebook.title nb) = lower target ->
     res = Result (Ok (Notebook.id nb, Notebook.title nb))
             [EvGet target (Err e); EvList (Ok notebooks)] w2) /\
  (forall e w1 notebooks w2 r3 w3,
     h _ (NotebooksGet target) w = (Err e, w1) ->
     isinstance e RPCError = true ->
     h _ NotebooksList w1 = (Ok notebooks, w2) ->
     (forall x, In x notebooks ->
                lower (Notebook.title x) <> lower target) ->
     h _ (NotebooksCreate target) w2 = (r3, w3) ->
     res = Result
             match r3 with
             | Ok nb => Ok (Notebook.id nb, Notebook.title nb)
             | Err e' => Err e'
             end
             [EvGet target (Err e); EvList (Ok notebooks);
              EvCreate target r3] w3) /\
  (forall e w1,
     h _ (NotebooksGet target) w = (Err e, w1) ->
     isinstance e RPCError = true ->
     exists rest,
       trace res =
       EvGet target (Err e) :: EvList (fst (h _ NotebooksList w1)) :: rest).
Proof.
  intros lower W h w target res; subst res.
  pose proof (resolve_notebook_trace_order lower W h w target) as Horder.
  pose proof (resolve_notebook_by_answers lower W h w target) as Hanswers.
  cbv zeta in Horder, Hanswers.
  destruct Horder as (H1 & H2 & H3 & H4).
  destruct Hanswers as (H5 & H6 & H7 & H8).
  exact (conj H1 (conj H2 (conj H3 (conj H4
           (conj H5 (conj H6 (conj H7 H8))))))).
Qed.

(** The case-insensitive example of the test suite: ["my docs"] against a
    notebook titled ["My Docs"] resolves to that notebook, and nothing is
    created; a target that matches no title has a notebook created under
    it. *)
Lemma resolve_my_docs :
  run (mock_client my_docs_mock) (resolve_notebook ascii_lower "my docs") 0 =
    Result (Ok ("found-id-789", "My Docs"))
      [EvGet "my docs" (Err (raise_of RPCError "not found"));
       EvList (Ok [Notebook.Make "found-id-789" "My Docs"])] 0 /\
  run (mock_client my_docs_mock) (resolve_notebook ascii_lower "New Notebook")
      0 =
    Result (Ok ("new-id-456", "New Notebook"))
      [EvGet "New Notebook" (Err (raise_of RPCError "not found"));
       EvList (Ok [Notebook.Make "found-id-789" "My Docs"]);
       EvCreate "New Notebook" (Ok (Notebook.Make "new-id-456" "New Notebook"))]
      0.
Proof.
  split.
  - destruct (resolve_notebook_first_success_wins ascii_lower nat
                (mock_client my_docs_mock) 0 "my docs")
      as (_ & _ & _ & _ & _ & H & _).
    apply (H (raise_of RPCError "not found") 0
             [Notebook.Make "found-id-789" "My Docs"] 0
             [] (Notebook.Make "found-id-789" "My Docs") []);
      try reflexivity.
    intros x [].
  - destruct (resolve_notebook_first_success_wins ascii_lower nat
                (mock_client my_docs_mock) 0 "New Notebook")
      as (_ & _ & _ & _ & _ & _ & H & _).
    apply (H (raise_of RPCError "not found") 0
             [Notebook.Make "found-id-789" "My Docs"] 0
             (Ok (Notebook.Make "new-id-456" "New Notebook")) 0);
      try reflexivity.
    intros x [<- | []]. discriminate.
Defined.

(** C9. When the lookup by id raises [e]: if [e] is an [RPCError] the run
    goes on exactly as the title search from the state the lookup left, and
    [e] appears in neither the value nor any later call; if [e] is not an
    [RPCError], resolution stops there and raises [e] itself, no listing and
    no creation is attempted, and in [main] the exception leaves the
    [async with] block and reaches the outer [except], which writes the
    degenerate report and exits with status 1. *)
Theorem resolve_fallback_only_on_rpc_error :
  forall (lower : string -> string) (W : Type) (h : handler W) (w w1 : W)
         (target : string) (e : exn),
  h _ (NotebooksGet target) w = (Err e, w1) ->
  (isinstance e RPCError = true ->
   run h (resolve_notebook lower target) w =
   let r2 := run h (search_or_create lower target) w1 in
   Result (value r2) (EvGet target (Err e) :: trace r2) (world r2)) /\
  (isinstance e RPCError = false ->
   run h (resolve_notebook lower target) w =
     Result (Err e) [EvGet target (Err e)] w1 /\
   forall (urls : list string) (w0 wa : W),
     h _ FromStorage w0 = (Ok tt, wa) ->
     h _ AEnter wa = (Ok tt, w) ->
     run h (main lower (Json (Object (Some target) (Some urls)))) w0 =
     let (rx, wx) := h _ (AExit (Some e)) w1 in
     Result (Ok 1)
       [EvFromStorage (Ok tt); EvAEnter (Ok tt); EvGet target (Err e);
        EvAExit (Some e) rx;
        EvDump (error_result match rx with Ok _ => e | Err e' => e' end)]
       wx).
Proof.
  intros lower W h w w1 target e Hget.
  assert (Hres : forall b, isinstance e RPCError = b ->
            run h (resolve_notebook lower target) w =
            if b
            then let r2 := run h (search_or_create lower target) w1 in
                 Result (value r2) (EvGet target (Err e) :: trace r2)
                        (world r2)
            else Result (Err e) [EvGet target (Err e)] w1).
  { intros b Hb. rewrite resolve_notebook_run, Hget, Hb. reflexivity. }
  split; intros Hrpc; [exact (Hres true Hrpc) |].
  split; [exact (Hres false Hrpc) |].
  intros urls w0 wa Hfs Hae.
  rewrite main_run_request, Hfs, Hae. cbv zeta.
  rewrite session_body_run. cbv zeta.
  rewrite (Hres false Hrpc). cbn [value trace world in_flight].
  destruct (h _ (AExit (Some e)) w1) as [[[] | e'] wx]; reflexivity.
Qed.

Lemma resolve_unrelated_failure_is_fatal :
  run (mock_client broken_get_mock) (resolve_notebook ascii_lower "Test") 0 =
    Result (Err (builtin_error "boom"))
      [EvGet "Test" (Err (builtin_error "boom"))] 0 /\
  run (mock_client broken_get_mock)
      (main ascii_lower (Json (Object (Some "Test") (Some ["https://example.com"]))))
      0 =
    Result (Ok 1)
      [EvFromStorage (Ok tt); EvAEnter (Ok tt);
       EvGet "Test" (Err (builtin_error "boom"));
       EvAExit (Some (builtin_error "boom")) (Ok tt);
       EvDump (error_result (builtin_error "boom"))] 0 /\
  run (mock_client my_docs_mock) (resolve_notebook ascii_lower "my docs") 0 =
    Result (Ok ("found-id-789", "My Docs"))
      [EvGet "my docs" (Err (raise_of RPCError "not found"));
       EvList (Ok [Notebook.Make "found-id-789" "My Docs"])] 0.
Proof.
  destruct (resolve_fallback_only_on_rpc_error ascii_lower nat
              (mock_client broken_get_mock) 0 0 "Test"
              (builtin_error "boom") eq_refl) as [_ H].
  destruct (H eq_refl) as [H1 H2].
  split; [exact H1 |].
  split; [exact (H2 ["https://example.com"] 0 0 eq_refl eq_refl) |].
  destruct (resolve_fallback_only_on_rpc_error ascii_lower nat
              (mock_client my_docs_mock) 0 0 "my docs"
              (raise_of RPCError "not found") eq_refl) as [H3 _].
  exact (H3 eq_refl).
Defined.

(** ** Completion wait *)

(** C5. When the batched wait raises [e]: phase 2 returns normally if [e] is
    a [TimeoutError] and raises [e] itself otherwise.  In [main], after a
    timeout the run goes on to write the normal report, whose errors are the
    failures of phase 1 only, and exits with status 0 when the session is
    released; after any other failure of the wait the exception leaves the
    [async with] block and the outer [except] writes the degenerate report
    and exits with status 1. *)
Theorem phase2_swallows_only_timeout :
  (forall (W : Type) (h : handler W) (w w1 : W) (notebook_id source_id : string)
          (rest : list string) (timeout : float) (e : exn),
     h _ (SourcesWaitForSources notebook_id (source_id :: rest) timeout) w
       = (Err e, w1) ->
     run h (wait_for_sources_phase2 notebook_id (source_id :: rest) timeout) w
     = Result (if isinstance e TimeoutError then Ok tt else Err e)
         [EvWait notebook_id (source_id :: rest) timeout (Err e)] w1) /\
  (forall (lower : string -> string) (W : Type) (h : handler W)
          (w0 wa wb w3 : W) (target : string) (urls : list string)
          (ids : string * string) (source_id : string) (rest : list string)
          (e : exn),
     h _ FromStorage w0 = (Ok tt, wa) ->
     h _ AEnter wa = (Ok tt, wb) ->
     let r1 := run h (resolve_notebook lower target) wb in
     value r1 = Ok ids ->
     let r2 := run h (add_urls_phase1 (fst ids) urls) (world r1) in
     added_of (trace r2) = source_id :: rest ->
     h _ (SourcesWaitForSources (fst ids) (source_id :: rest) default_timeout)
         (world r2) = (Err e, w3) ->
     let waited :=
       EvFromStorage (Ok tt) :: EvAEnter (Ok tt) ::
       trace r1 ++ trace r2 ++
       [EvWait (fst ids) (source_id :: rest) default_timeout (Err e)] in
     run h (main lower (Json (Object (Some target) (Some urls)))) w0 =
     if isinstance e TimeoutError
     then
       let (rx, wx) := h _ (AExit None) w3 in
       match rx with
       | Ok _ =>
           Result (Ok 0)
             (waited ++ [EvDump (success_report ids (trace r2));
                         EvAExit None rx]) wx
       | Err e' =>
           Result (Ok 1)
             (waited ++ [EvDump (success_report ids (trace r2));
                         EvAExit None rx; EvDump (error_result e')]) wx
       end
     else
       let (rx, wx) := h _ (AExit (Some e)) w3 in
       Result (Ok 1)
         (waited ++
          [EvAExit (Some e) rx;
           EvDump (error_result match rx with Ok _ => e | Err e' => e' end)])
         wx).
Proof.
  split.
  - intros W h w w1 notebook_id source_id rest timeout e Hwait.
    rewrite wait_for_sources_phase2_run, Hwait.
    destruct (isinstance e TimeoutError); reflexivity.
  - intros lower W h w0 wa wb w3 target urls ids source_id rest e
      Hfs Hae r1 Hr1 r2 Hadded Hwait waited.
    rewrite main_run_request, Hfs, Hae. cbv zeta.
    rewrite session_body_run. cbv zeta. fold r1. rewrite Hr1.
    fold r2. rewrite Hadded.
    rewrite wait_for_sources_phase2_run, Hwait.
    subst waited.
    destruct (isinstance e TimeoutError); cbn [value trace world in_flight].
    + destruct (h _ (AExit None) w3) as [[[] | e'] wx];
        cbn [app]; rewrite <- ?app_assoc; reflexivity.
    + destruct (h _ (AExit (Some e)) w3) as [[[] | e'] wx];
        cbn [app]; rewrite <- ?app_assoc; reflexivity.
Qed.

Lemma phase2_timeout_examples :
  run (mock_client wait_times_out_mock)
      (wait_for_sources_phase2 "nb-id" ["src-1"] default_timeout) 0 =
    Result (Ok tt)
      [EvWait "nb-id" ["src-1"] default_timeout
         (Err (raise_of TimeoutError "timed out"))] 0 /\
  run (mock_client wait_breaks_mock)
      (wait_for_sources_phase2 "nb-id" ["src-1"] default_timeout) 0 =
    Result (Err (builtin_error "connection reset"))
      [EvWait "nb-id" ["src-1"] default_timeout
         (Err (builtin_error "connection reset"))] 0 /\
  run (mock_client wait_times_out_mock)
      (main ascii_lower (Json (Object (Some "Test") (Some ["https://example.com"]))))
      0 =
    Result (Ok 0)
      [EvFromStorage (Ok tt); EvAEnter (Ok tt);
       EvGet "Test" (Ok (Notebook.Make "nb-real-id" "Test"));
       EvAddUrl "nb-real-id" "https://example.com" false
         (Ok (Source.Make "src-1"));
       EvWait "nb-real-id" ["src-1"] default_timeout
         (Err (raise_of TimeoutError "timed out"));
       EvDump (Report "nb-real-id" "Test" 1 0 []);
       EvAExit None (Ok tt)] 1 /\
  run (mock_client wait_breaks_mock)
      (main ascii_lower (Json (Object (Some "Test") (Some ["https://example.com"]))))
      0 =
    Result (Ok 1)
      [EvFromStorage (Ok tt); EvAEnter (Ok tt);
       EvGet "Test" (Ok (Notebook.Make "nb-real-id" "Test"));
       EvAddUrl "nb-real-id" "https://example.com" false
         (Ok (Source.Make "src-1"));
       EvWait "nb-real-id" ["src-1"] default_timeout
         (Err (builtin_error "connection reset"));
       EvAExit (Some (builtin_error "connection reset")) (Ok tt);
       EvDump (Report "" "" 0 0 ["Script error: connection reset"])] 1.
Proof.
  destruct phase2_swallows_only_timeout as [F M].
  split.
  { exact (F nat (mock_client wait_times_out_mock) 0 0 "nb-id" "src-1" []
             default_timeout (raise_of TimeoutError "timed out") eq_refl). }
  split.
  { exact (F nat (mock_client wait_breaks_mock) 0 0 "nb-id" "src-1" []
             default_timeout (builtin_error "connection reset") eq_refl). }
  split.
  { exact (M ascii_lower nat (mock_client wait_times_out_mock) 0 0 0 1
             "Test" ["https://example.com"] ("nb-real-id", "Test")
             "src-1" [] (raise_of TimeoutError "timed out")
             eq_refl eq_refl eq_refl eq_refl eq_refl). }
  exact (M ascii_lower nat (mock_client wait_breaks_mock) 0 0 0 1
           "Test" ["https://example.com"] ("nb-real-id", "Test")
           "src-1" [] (builtin_error "connection reset")
           eq_refl eq_refl eq_refl eq_refl eq_refl).
Defined.

(** ** Where the wait sits in a run *)

Lemma wait_split_unique (A B pre post : list event)
  (nb nb' : string) (ids ids' : list string) (t t' : float)
  (r r' : outcome unit) :
  waits_of A = [] -> waits_of B = [] ->
  A ++ EvWait nb ids t r :: B = pre ++ EvWait nb' ids' t' r' :: post ->
  pre = A /\ post = B /\ nb' = nb /\ ids' = ids /\ t' = t /\ r' = r.
Proof.
  intros HA HB. revert pre.
  induction A as [| a A IH]; intros pre Heq.
  - destruct pre as [| p pre]; simpl in Heq.
    + inversion Heq; subst. now repeat split.
    + inversion Heq; subst. rewrite waits_of_app in HB. simpl in HB.
      now destruct (waits_of pre).
  - destruct pre as [| p pre]; simpl in Heq.
    + inversion Heq; subst. simpl in HA. discriminate HA.
    + inversion Heq; subst.
      assert (HA' : waits_of A = []) by (destruct p; simpl in HA;
        first [exact HA | discriminate HA]).
      destruct (IH HA' pre H1) as (-> & -> & -> & -> & -> & ->).
      now repeat split.
Qed.

Lemma no_wait_no_split (tr pre post : list event) (nb : string)
  (ids : list string) (t : float) (r : outcome unit) :
  waits_of tr = [] -> tr <> pre ++ EvWait nb ids t r :: post.
Proof.
  intros Hw ->. rewrite waits_of_app in Hw. simpl in Hw.
  now destruct (waits_of pre).
Qed.

Section MainShape.

Variable lower : string -> string.
Context {W : Type} (h : handler W).

(** Every run of [main] either never waits, and then added nothing if it
    exits with status 0, or has exactly one wait, issued after every
    submission on the ids those submissions returned. *)
Lemma main_wait_shape (stdin : stdin_content) (w : W) :
  let res := run h (main lower stdin) w in
  (waits_of (trace res) = [] /\
   (value res = Ok 0 -> added_of (trace res) = [])) \/
  (exists target urls A nb r B,
     stdin = Json (Object (Some target) (Some urls)) /\
     trace res = A ++ EvWait nb (added_of A) default_timeout r :: B /\
     waits_of A = [] /\ waits_of B = [] /\
     submitted_of A = urls /\ submitted_of B = [] /\
     added_of A <> [] /\ added_of B = []).
Proof.
  cbv zeta.
  destruct (input_error stdin) as [e |] eqn:Hin.
  { rewrite (main_run_rejected lower h stdin e w Hin). left.
    split; [reflexivity | discriminate]. }
  destruct stdin as [msg | [k | [target |] [urls |]]]; try discriminate Hin.
  rewrite main_run_request.
  destruct (h _ FromStorage w) as [[[] | e0] w0];
    [| left; split; [reflexivity | discriminate]].
  destruct (h _ AEnter w0) as [[[] | ea] wa];
    [| left; split; [reflexivity | discriminate]].
  cbv zeta. rewrite session_body_run. cbv zeta.
  set (r1 := run h (resolve_notebook lower target) wa).
  destruct (resolve_events_quiet (trace r1)
              (resolve_notebook_events lower h target wa))
    as (Ha1 & Hf1 & Hs1 & Hw1 & Ho1).
  fold r1 in Ha1, Hf1, Hs1, Hw1, Ho1.
  destruct (value r1) as [ids | e1].
  2:{ cbn [value trace world in_flight]. left.
      destruct (h _ (AExit (Some e1)) (world r1)) as [[[] | e'] wx];
        cbn [trace value]; (split; [| discriminate]);
        cbn [waits_of app]; rewrite <- ?app_assoc, !waits_of_app, Hw1;
        reflexivity. }
  set (r2 := run h (add_urls_phase1 (fst ids) urls) (world r1)).
  assert (Hr2 : trace r2 = fst (submit_in_turn h (fst ids) urls (world r1)))
    by (subst r2; now rewrite add_urls_phase1_run).
  destruct (submit_in_turn_quiet h (fst ids) urls (world r1)) as [Hw2 Ho2].
  assert (Hs2 := submit_in_turn_submitted h (fst ids) urls (world r1)).
  rewrite <- Hr2 in Hw2, Ho2, Hs2.
  rewrite wait_for_sources_phase2_run.
  destruct (added_of (trace r2)) as [| source_id rest] eqn:Hadd.
  { left. cbn [value trace world in_flight].
    destruct (h _ (AExit None) (world r2)) as [[[] | e'] wx];
      cbn [trace value]; (split; [| try discriminate]);
      cbn [waits_of added_of app];
      rewrite <- ?app_assoc, ?waits_of_app, ?added_of_app, ?Hw1, ?Hw2,
        ?Ha1, ?Hadd; reflexivity. }
  right.
  destruct (h _ (SourcesWaitForSources _ _ _) (world r2)) as [r w3].
  exists target, urls,
    (EvFromStorage (Ok tt) :: EvAEnter (Ok tt) :: trace r1 ++ trace r2),
    (fst ids), r.
  assert (HA : added_of
                 (EvFromStorage (Ok tt) :: EvAEnter (Ok tt) ::
                  trace r1 ++ trace r2) = source_id :: rest)
    by (cbn [added_of]; now rewrite added_of_app, Ha1, Hadd).
  rewrite HA.
  assert (HwA : waits_of
                  (EvFromStorage (Ok tt) :: EvAEnter (Ok tt) ::
                   trace r1 ++ trace r2) = [])
    by (cbn [waits_of]; now rewrite waits_of_app, Hw1, Hw2).
  assert (HsA : submitted_of
                  (EvFromStorage (Ok tt) :: EvAEnter (Ok tt) ::
                   trace r1 ++ trace r2) = urls)
    by (cbn [submitted_of]; now rewrite submitted_of_app, Hs1, Hs2).
  destruct r as [[] | e]; [| destruct (isinstance e TimeoutError)];
    cbn [value trace world in_flight];
    match goal with
    | |- context [h unit (AExit ?x) w3] =>
        destruct (h unit (AExit x) w3) as [[[] | e'] wx]
    end;
    cbn [trace value];
    eexists;
    (split; [reflexivity |]);
    (split; [cbn [app]; rewrite <- ?app_assoc; cbn [app]; reflexivity |]);
    (split; [exact HwA |]);
    (split; [reflexivity |]);
    (split; [exact HsA |]);
    (split; [reflexivity |]);
    (split; [discriminate | reflexivity]).
Qed.

End MainShape.

(** C7. Phase 2 on an empty list of source ids returns at once and makes no
    call; on a non-empty list it makes exactly one call, the batched wait on
    that list.  In every run of [main]: no wait is issued when no source was
    added; a run that exits with status 0 after adding sources issued exactly
    one wait; and wherever a wait occurs in the trace it is the only one,
    every URL of the input was submitted before it and none after it, its ids
    are exactly the ids the submissions returned, and its timeout is the
    default of 120 seconds. *)
Theorem phase2_single_batched_wait :
  (forall (W : Type) (h : handler W) (w : W) (notebook_id : string)
          (timeout : float),
     run h (wait_for_sources_phase2 notebook_id [] timeout) w =
     Result (Ok tt) [] w) /\
  (forall (W : Type) (h : handler W) (w : W) (notebook_id source_id : string)
          (rest : list string) (timeout : float),
     trace (run h (wait_for_sources_phase2 notebook_id (source_id :: rest)
                     timeout) w) =
     [EvWait notebook_id (source_id :: rest) timeout
        (fst (h _ (SourcesWaitForSources notebook_id (source_id :: rest)
                     timeout) w))]) /\
  default_timeout = 120%float /\
  (forall (lower : string -> string) (W : Type) (h : handler W) (w : W)
          (stdin : stdin_content),
     let res := run h (main lower stdin) w in
     (added_of (trace res) = [] -> waits_of (trace res) = []) /\
     (value res = Ok 0 -> added_of (trace res) <> [] ->
      exists nb,
        waits_of (trace res) = [(nb, added_of (trace res), default_timeout)]) /\
     (forall pre nb ids t r post,
        trace res = pre ++ EvWait nb ids t r :: post ->
        waits_of pre = [] /\ waits_of post = [] /\
        (exists target,
           stdin = Json (Object (Some target) (Some (submitted_of pre)))) /\
        submitted_of post = [] /\
        ids = added_of pre /\ ids = added_of (trace res) /\
        t = default_timeout)).
Proof.
  split; [reflexivity |].
  split.
  { intros W h w notebook_id source_id rest timeout.
    rewrite wait_for_sources_phase2_run.
    now destruct (h _ _ w). }
  split; [reflexivity |].
  intros lower W h w stdin res.
  destruct (main_wait_shape lower h stdin w) as
    [[Hw Hv] | (target & urls & A & nb0 & r0 & B & Hin & Htr & HwA & HwB &
                HsA & HsB & HaA & HaB)]; fold res in Hw, Hv || fold res in Htr.
  - split; [intros _; exact Hw |].
    split; [intros H0 Hne; elim Hne; now apply Hv |].
    intros pre nb ids t r post Hsplit. exfalso.
    exact (no_wait_no_split (trace res) pre post nb ids t r Hw Hsplit).
  - assert (Hadd : added_of (trace res) = added_of A).
    { rewrite Htr, added_of_app. cbn [added_of]. rewrite HaB.
      apply app_nil_r. }
    split; [intros Hnil; rewrite Hadd in Hnil; now elim HaA |].
    split.
    { intros _ _. exists nb0.
      rewrite Hadd, Htr, waits_of_app. cbn [waits_of].
      now rewrite HwA, HwB. }
    intros pre nb ids t r post Hsplit. rewrite Htr in Hsplit.
    destruct (wait_split_unique A B pre post nb0 nb (added_of A) ids
                default_timeout t r0 r HwA HwB Hsplit)
      as (-> & -> & -> & -> & -> & ->).
    repeat split; try assumption.
    + exists target. now rewrite HsA.
    + now rewrite Hadd.
Qed.

(** Three URLs with the second rejected: the one wait of the run comes
    after the three submissions and covers the two ids they returned. *)
Lemma wait_after_three_submissions :
  let res :=
    run (mock_client second_rejected_mock)
        (main ascii_lower (Json (Object (Some "Test") (Some three_urls)))) 0 in
  let pre :=
    [EvFromStorage (Ok tt); EvAEnter (Ok tt);
     EvGet "Test" (Ok (Notebook.Make "nb-real-id" "Test"));
     EvAddUrl "nb-real-id" "https://a.com" false (Ok (Source.Make "src-1"));
     EvAddUrl "nb-real-id" "https://bad.com" false
       (Err (raise_of SourceAddError "bad url"));
     EvAddUrl "nb-real-id" "https://c.com" false (Ok (Source.Make "src-1"))] in
  let post :=
    [EvDump (Report "nb-real-id" "Test" 2 1 ["https://bad.com: bad url"]);
     EvAExit None (Ok tt)] in
  trace res =
    pre ++ EvWait "nb-real-id" ["src-1"; "src-1"] default_timeout (Ok tt)
        :: post /\
  waits_of pre = [] /\ waits_of post = [] /\
  (exists target,
     Json (Object (Some "Test") (Some three_urls)) =
     Json (Object (Some target) (Some (submitted_of pre)))) /\
  submitted_of post = [] /\
  ["src-1"; "src-1"] = added_of pre /\
  ["src-1"; "src-1"] = added_of (trace res) /\
  default_timeout = default_timeout.
Proof.
  cbv zeta. split; [reflexivity |].
  destruct phase2_single_batched_wait as (_ & _ & _ & M).
  destruct (M ascii_lower nat (mock_client second_rejected_mock) 0
              (Json (Object (Some "Test") (Some three_urls)))) as (_ & _ & S).
  exact (S [EvFromStorage (Ok tt); EvAEnter (Ok tt);
            EvGet "Test" (Ok (Notebook.Make "nb-real-id" "Test"));
            EvAddUrl "nb-real-id" "https://a.com" false
              (Ok (Source.Make "src-1"));
            EvAddUrl "nb-real-id" "https://bad.com" false
              (Err (raise_of SourceAddError "bad url"));
            EvAddUrl "nb-real-id" "https://c.com" false
              (Ok (Source.Make "src-1"))]
           "nb-real-id" ["src-1"; "src-1"] default_timeout (Ok tt)
           [EvDump (Report "nb-real-id" "Test" 2 1 ["https://bad.com: bad url"]);
            EvAExit None (Ok tt)]
           eq_refl).
Defined.

(** ** The report *)

(** C8. In every run of [main] that exits with status 0, standard output
    holds exactly one report; phase 1 ran inside that run on the URLs of the
    input and the resolved notebook and returned [(added_ids, failures)];
    and the report carries the resolved id and title, the lengths of the two
    lists, and as errors the strings ["{url}: {message}"] of the failures,
    in the order phase 1 recorded them. *)
Theorem report_assembled_from_phase1 :
  forall (lower : string -> string) (W : Type) (h : handler W) (w : W)
         (stdin : stdin_content),
  let res := run h (main lower stdin) w in
  value res = Ok 0 ->
  exists target urls ids wa pre post added_ids failures,
    stdin = Json (Object (Some target) (Some urls)) /\
    value (run h (resolve_notebook lower target) wa) = Ok ids /\
    let phase1 :=
      run h (add_urls_phase1 (fst ids) urls)
        (world (run h (resolve_notebook lower target) wa)) in
    value phase1 = Ok (added_ids, failures) /\
    trace res = pre ++ trace phase1 ++ post /\
    submitted_of pre = [] /\ submitted_of post = [] /\
    stdout_of (trace res) =
      [{| notebook_id := fst ids;
          notebook_title := snd ids;
          added := List.length added_ids;
          failed := List.length failures;
          errors :=
            map (fun f => (fst f ++ ": " ++ snd f)%string) failures |}].
Proof.
  intros lower W h w stdin res Hexit; subst res.
  destruct (input_error stdin) as [e |] eqn:Hin.
  { rewrite (main_run_rejected lower h stdin e w Hin) in Hexit.
    discriminate Hexit. }
  destruct stdin as [msg | [k | [target |] [urls |]]]; try discriminate Hin.
  revert Hexit. rewrite main_run_request.
  destruct (h _ FromStorage w) as [[[] | e0] w0]; [| discriminate].
  destruct (h _ AEnter w0) as [[[] | ea] wa]; [| discriminate].
  cbv zeta. rewrite session_body_run. cbv zeta.
  set (r1 := run h (resolve_notebook lower target) wa).
  destruct (resolve_events_quiet (trace r1)
              (resolve_notebook_events lower h target wa))
    as (Ha1 & Hf1 & Hs1 & Hw1 & Ho1).
  fold r1 in Ha1, Hf1, Hs1, Hw1, Ho1.
  destruct (value r1) as [ids | e1] eqn:Hr1.
  2:{ cbn [value trace world in_flight].
      destruct (h _ (AExit (Some e1)) (world r1)) as [[[] | e'] wx];
        discriminate. }
  set (r2 := run h (add_urls_phase1 (fst ids) urls) (world r1)).
  assert (Hv2 : value r2 = Ok (added_of (trace r2), failed_of (trace r2)))
    by (subst r2; now rewrite add_urls_phase1_run).
  assert (Hr2 : trace r2 = fst (submit_in_turn h (fst ids) urls (world r1)))
    by (subst r2; now rewrite add_urls_phase1_run).
  destruct (submit_in_turn_quiet h (fst ids) urls (world r1)) as [Hw2 Ho2].
  rewrite <- Hr2 in Hw2, Ho2.
  set (r3 := run h (wait_for_sources_phase2 (fst ids) (added_of (trace r2))
                      default_timeout) (world r2)).
  assert (H3 : submitted_of (trace r3) = [] /\ stdout_of (trace r3) = []).
  { subst r3. rewrite wait_for_sources_phase2_run.
    destruct (added_of (trace r2)); [now split |].
    now destruct (h _ _ (world r2)). }
  destruct H3 as [Hs3 Ho3].
  destruct (value r3) as [[] | e3].
  2:{ cbn [value trace world in_flight].
      destruct (h _ (AExit (Some e3)) (world r3)) as [[[] | e'] wx];
        discriminate. }
  cbn [value trace world in_flight].
  destruct (h _ (AExit None) (world r3)) as [[[] | e'] wx]; [| discriminate].
  intros _. cbn [trace].
  exists target, urls, ids, wa,
    (EvFromStorage (Ok tt) :: EvAEnter (Ok tt) :: trace r1),
    (trace r3 ++ [EvDump (success_report ids (trace r2));
                  EvAExit None (Ok tt)]),
    (added_of (trace r2)), (failed_of (trace r2)).
  split; [reflexivity |].
  split; [exact Hr1 |].
  cbv zeta. fold r1. fold r2.
  split; [exact Hv2 |].
  split; [cbn [app]; now rewrite <- !app_assoc |].
  split; [exact Hs1 |].
  split; [now rewrite submitted_of_app, Hs3 |].
  cbn [stdout_of app].
  rewrite !stdout_of_app, Ho1, Ho2, Ho3. reflexivity.
Qed.

Lemma report_of_partial_failure :
  let res :=
    run (mock_client second_rejected_mock)
        (main ascii_lower (Json (Object (Some "Test") (Some three_urls)))) 0 in
  value res = Ok 0 /\
  stdout_of (trace res) =
    [Report "nb-real-id" "Test" 2 1 ["https://bad.com: bad url"]] /\
  exists target urls ids wa pre post added_ids failures,
    Json (Object (Some "Test") (Some three_urls)) =
      Json (Object (Some target) (Some urls)) /\
    value (run (mock_client second_rejected_mock)
             (resolve_notebook ascii_lower target) wa) = Ok ids /\
    let phase1 :=
      run (mock_client second_rejected_mock)
        (add_urls_phase1 (fst ids) urls)
        (world (run (mock_client second_rejected_mock)
                  (resolve_notebook ascii_lower target) wa)) in
    value phase1 = Ok (added_ids, failures) /\
    trace res = pre ++ trace phase1 ++ post /\
    submitted_of pre = [] /\ submitted_of post = [] /\
    stdout_of (trace res) =
      [{| notebook_id := fst ids;
          notebook_title := snd ids;
          added := List.length added_ids;
          failed := List.length failures;
          errors :=
            map (fun f => (fst f ++ ": " ++ snd f)%string) failures |}].
Proof.
  cbv zeta.
  split; [reflexivity |].
  split; [reflexivity |].
  apply (report_assembled_from_phase1 ascii_lower nat
           (mock_client second_rejected_mock) 0
           (Json (Object (Some "Test") (Some three_urls)))).
  reflexivity.
Defined.

(** ** Malformed input *)

(** C10. When standard input is not JSON, or the parsed document has no
    ["notebook"] or no ["urls"] member, the run consists of one write of the
    degenerate report and nothing else: no call to the client or its session
    is made, the client's state is untouched, and the exit status is 1. *)
Theorem malformed_input_touches_nothing :
  forall (lower : string -> string) (W : Type) (h : handler W) (w : W)
         (stdin : stdin_content),
  (exists e, json_load stdin = Err e) \/
  (exists input_data e,
     json_load stdin = Ok input_data /\
     getitem_notebook input_data = Err e) \/
  (exists input_data e,
     json_load stdin = Ok input_data /\
     getitem_urls input_data = Err e) ->
  let res := run h (main lower stdin) w in
  exists e,
    input_error stdin = Some e /\
    trace res = [EvDump (error_result e)] /\
    calls_of (trace res) = [] /\
    world res = w /\
    value res = Ok 1.
Proof.
  intros lower W h w stdin Hbad res; subst res.
  assert (Hin : exists e, input_error stdin = Some e).
  { unfold input_error.
    destruct stdin as [msg | [k | [target |] [urls |]]]; simpl;
      try (eexists; reflexivity).
    destruct Hbad as [[e He] | [(d & e & Hd & He) | (d & e & Hd & He)]];
      try discriminate He; inversion Hd; subst; discriminate He. }
  destruct Hin as [e Hin]. exists e.
  rewrite (main_run_rejected lower h stdin e w Hin).
  now repeat split.
Qed.

(** The specification's scenario C: the ["urls"] key is missing. *)
Lemma missing_urls_is_rejected :
  let res :=
    run (mock_client my_docs_mock) (main ascii_lower (Json (Object (Some "Test") None)))
        0 in
  exists e,
    input_error (Json (Object (Some "Test") None)) = Some e /\
    trace res = [EvDump (error_result e)] /\
    calls_of (trace res) = [] /\
    world res = 0 /\
    value res = Ok 1.
Proof.
  apply (malformed_input_touches_nothing ascii_lower nat
           (mock_client my_docs_mock) 0 (Json (Object (Some "Test") None))).
  right; right. exists (Object (Some "Test") None), (key_error "urls").
  split; reflexivity.
Defined.

(** ** How many reports a run writes *)

Section Reports.

Variable lower : string -> string.
Context {W : Type} (h : handler W).

(** Every run writes one report, except a run whose session release raises
    after the normal report was written: that one writes the degenerate
    report as well. *)
Lemma main_stdout_cases (stdin : stdin_content) (w : W) :
  let res := run h (main lower stdin) w in
  (exists doc,
     stdout_of (trace res) = [doc] /\
     (value res = Ok 0 \/
      value res = Ok 1 /\ exists e, doc = error_result e)) \/
  (exists doc e',
     stdout_of (trace res) = [doc; error_result e'] /\
     value res = Ok 1 /\
     In (EvAExit None (Err e')) (trace res)).
Proof.
  cbv zeta.
  destruct (input_error stdin) as [e |] eqn:Hin.
  { rewrite (main_run_rejected lower h stdin e w Hin). left.
    eexists; split; [reflexivity | right; split; [reflexivity | now eexists]]. }
  destruct stdin as [msg | [k | [target |] [urls |]]]; try discriminate Hin.
  rewrite main_run_request.
  destruct (h _ FromStorage w) as [[[] | e0] w0];
    [| left; eexists; split;
       [reflexivity | right; split; [reflexivity | now eexists]]].
  destruct (h _ AEnter w0) as [[[] | ea] wa];
    [| left; eexists; split;
       [reflexivity | right; split; [reflexivity | now eexists]]].
  cbv zeta. rewrite session_body_run. cbv zeta.
  set (r1 := run h (resolve_notebook lower target) wa).
  destruct (resolve_events_quiet (trace r1)
              (resolve_notebook_events lower h target wa))
    as (_ & _ & _ & _ & Ho1).
  fold r1 in Ho1.
  destruct (value r1) as [ids | e1].
  2:{ cbn [value trace world in_flight]. left.
      destruct (h _ (AExit (Some e1)) (world r1)) as [[[] | e'] wx];
        cbn [trace value]; eexists;
        (split; [cbn [stdout_of app];
                 rewrite <- ?app_assoc, !stdout_of_app, Ho1; reflexivity
                | right; split; [reflexivity | now eexists]]). }
  set (r2 := run h (add_urls_phase1 (fst ids) urls) (world r1)).
  assert (Hr2 : trace r2 = fst (submit_in_turn h (fst ids) urls (world r1)))
    by (subst r2; now rewrite add_urls_phase1_run).
  destruct (submit_in_turn_quiet h (fst ids) urls (world r1)) as [_ Ho2].
  rewrite <- Hr2 in Ho2.
  set (r3 := run h (wait_for_sources_phase2 (fst ids) (added_of (trace r2))
                      default_timeout) (world r2)).
  assert (Ho3 : stdout_of (trace r3) = []).
  { subst r3. rewrite wait_for_sources_phase2_run.
    destruct (added_of (trace r2)); [reflexivity |].
    now destruct (h _ _ (world r2)). }
  destruct (value r3) as [[] | e3]; cbn [value trace world in_flight].
  - destruct (h _ (AExit None) (world r3)) as [[[] | e'] wx]; cbn [trace value].
    + left. eexists. split; [| now left].
      cbn [stdout_of app].
      rewrite <- ?app_assoc, !stdout_of_app, Ho1, Ho2, Ho3. reflexivity.
    + right. exists (success_report ids (trace r2)), e'.
      split; [| split; [reflexivity |]].
      * cbn [stdout_of app].
        rewrite <- ?app_assoc, !stdout_of_app, Ho1, Ho2, Ho3. reflexivity.
      * do 2 apply in_cons. rewrite !in_app_iff. simpl. auto 10.
  - left.
    destruct (h _ (AExit (Some e3)) (world r3)) as [[[] | e'] wx];
      cbn [trace value]; eexists;
      (split; [cbn [stdout_of app];
               rewrite <- ?app_assoc, !stdout_of_app, Ho1, Ho2, Ho3;
               reflexivity
              | right; split; [reflexivity | now eexists]]).
Qed.

End Reports.

(** C4. One JSON object per invocation does not hold when the session
    cannot be closed: with a client whose [__aexit__] raises after a run that
    added its URL, [main] has already written the normal report inside the
    [async with] block, and the outer [except] then writes the degenerate
    report too.  Standard output holds two JSON objects and the exit status
    is 1. *)
Theorem release_failure_writes_two_reports :
  let res :=
    run (mock_client release_fails_mock)
        (main ascii_lower (Json (Object (Some "Test") (Some ["https://example.com"]))))
        0 in
  trace res =
    [EvFromStorage (Ok tt); EvAEnter (Ok tt);
     EvGet "Test" (Ok (Notebook.Make "nb-real-id" "Test"));
     EvAddUrl "nb-real-id" "https://example.com" false
       (Ok (Source.Make "src-1"));
     EvWait "nb-real-id" ["src-1"] default_timeout (Ok tt);
     EvDump (Report "nb-real-id" "Test" 1 0 []);
     EvAExit None (Err (builtin_error "session close failed"));
     EvDump (Report "" "" 0 0 ["Script error: session close failed"])] /\
  stdout_of (trace res) =
    [Report "nb-real-id" "Test" 1 0 [];
     Report "" "" 0 0 ["Script error: session close failed"]] /\
  value res = Ok 1.
Proof.
  cbv zeta. repeat split.
Qed.

(** ** End-to-end scenarios of the specification *)

(** Scenario A: one URL, a notebook found by id, a successful submission. *)
Example scenario_one_url :
  let res :=
    run (mock_client happy_mock)
        (main ascii_lower
           (Json (Object (Some "Test") (Some ["https://example.com"])))) 0 in
  stdout_of (trace res) = [Report "nb-real-id" "Test" 1 0 []] /\
  value res = Ok 0.
Proof. now split. Qed.

(** Scenario B: two URLs, both submitted successfully. *)
Example scenario_two_urls :
  let res :=
    run (mock_client happy_mock)
        (main ascii_lower
           (Json (Object (Some "My Notebook")
                    (Some ["https://a.com"; "https://b.com"])))) 0 in
  stdout_of (trace res) = [Report "nb-real-id" "My Notebook" 2 0 []] /\
  value res = Ok 0.
Proof. now split. Qed.

(** No match by id or by title: a notebook is created under the target. *)
Example resolve_creates_when_nothing_matches :
  run (mock_client
         {| get_answer := fun _ => Err (raise_of RPCError "not found");
            list_answer := Ok [Notebook.Make "other-id" "Other"];
            create_answer := fun title => Ok (Notebook.Make "new-id-456" title);
            add_url_answer := fun _ => Ok (Source.Make "src-1");
            wait_answer := Ok tt;
            from_storage_answer := Ok tt;
            aenter_answer := Ok tt;
            aexit_answer := Ok tt |})
      (resolve_notebook ascii_lower "New Notebook") 0 =
  Result (Ok ("new-id-456", "New Notebook"))
    [EvGet "New Notebook" (Err (raise_of RPCError "not found"));
     EvList (Ok [Notebook.Make "other-id" "Other"]);
     EvCreate "New Notebook" (Ok (Notebook.Make "new-id-456" "New Notebook"))]
    0.
Proof. reflexivity. Qed.

(** * Further properties of the script *)

(** ** Resolution: failures after the lookup by id *)

(** X1. The recovery of [resolve_notebook] covers the lookup by id only.
    Once that lookup has raised [RPCError], an exception of the listing, of
    whatever class, is raised by [resolve_notebook] and nothing is created;
    and when no listed title matches, an exception of the creation is raised
    by [resolve_notebook] as well. *)
Theorem resolve_raises_later_failures :
  forall (lower : string -> string) (W : Type) (h : handler W) (w w1 : W)
         (target : string) (e : exn),
  h _ (NotebooksGet target) w = (Err e, w1) ->
  isinstance e RPCError = true ->
  (forall (e' : exn) (w2 : W),
     h _ NotebooksList w1 = (Err e', w2) ->
     run h (resolve_notebook lower target) w =
     Result (Err e') [EvGet target (Err e); EvList (Err e')] w2) /\
  (forall (notebooks : list Notebook.t) (e' : exn) (w2 w3 : W),
     h _ NotebooksList w1 = (Ok notebooks, w2) ->
     (forall x, In x notebooks ->
                lower (Notebook.title x) <> lower target) ->
     h _ (NotebooksCreate target) w2 = (Err e', w3) ->
     run h (resolve_notebook lower target) w =
     Result (Err e')
       [EvGet target (Err e); EvList (Ok notebooks);
        EvCreate target (Err e')] w3).
Proof.
  intros lower W h w w1 target e Hget Hrpc.
  split.
  - intros e' w2 Hlist.
    rewrite resolve_notebook_run, Hget, Hrpc. cbv zeta.
    rewrite search_or_create_run, Hlist. reflexivity.
  - intros notebooks e' w2 w3 Hlist Hnone Hcreate.
    rewrite resolve_notebook_run, Hget, Hrpc. cbv zeta.
    rewrite search_or_create_run, Hlist.
    apply find_by_title_none in Hnone. rewrite Hnone, Hcreate.
    reflexivity.
Qed.

Lemma resolve_raises_later_failures_examples :
  run (mock_client list_fails_mock) (resolve_notebook ascii_lower "Docs") 0 =
    Result (Err (raise_of RPCError "listing failed"))
      [EvGet "Docs" (Err (raise_of RPCError "not found"));
       EvList (Err (raise_of RPCError "listing failed"))] 0 /\
  run (mock_client create_fails_mock) (resolve_notebook ascii_lower "Docs") 0 =
    Result (Err (raise_of RPCError "quota exceeded"))
      [EvGet "Docs" (Err (raise_of RPCError "not found"));
       EvList (Ok [Notebook.Make "other-id" "Other"]);
       EvCreate "Docs" (Err (raise_of RPCError "quota exceeded"))] 0.
Proof.
  split.
  - destruct (resolve_raises_later_failures ascii_lower nat
                (mock_client list_fails_mock) 0 0 "Docs"
                (raise_of RPCError "not found") eq_refl eq_refl) as [H _].
    exact (H (raise_of RPCError "listing failed") 0 eq_refl).
  - destruct (resolve_raises_later_failures ascii_lower nat
                (mock_client create_fails_mock) 0 0 "Docs"
                (raise_of RPCError "not found") eq_refl eq_refl) as [_ H].
    apply (H [Notebook.Make "other-id" "Other"]
             (raise_of RPCError "quota exceeded") 0 0 eq_refl).
    + intros x [<- | []]. discriminate.
    + reflexivity.
Defined.

(** ** The title search *)

(** X2. The loop over the listing returns a notebook exactly when the
    listing splits into notebooks whose lowercased title differs from the
    lowercased target, followed by one whose lowercased title equals it, and
    it then returns the id and the title of that one as listed; it returns
    nothing exactly when no listed title matches. *)
Theorem title_search_first_match :
  forall (lower : string -> string) (target_lower : string)
         (notebooks : list Notebook.t),
  (forall found : string * string,
     find_by_title lower target_lower notebooks = Some found <->
     exists pre nb post,
       notebooks = pre ++ nb :: post /\
       (forall x, In x pre -> lower (Notebook.title x) <> target_lower) /\
       lower (Notebook.title nb) = target_lower /\
       found = (Notebook.id nb, Notebook.title nb)) /\
  (find_by_title lower target_lower notebooks = None <->
   forall x, In x notebooks -> lower (Notebook.title x) <> target_lower).
Proof.
  intros lower target_lower notebooks.
  split; [| apply find_by_title_none].
  intros found. split.
  - induction notebooks as [| x rest IH]; simpl; [discriminate |].
    destruct (String.eqb_spec (lower (Notebook.title x)) target_lower)
      as [Heq | Hne].
    + intros H. inversion H; subst found.
      exists [], x, rest. repeat split; try assumption. intros y [].
    + intros H. destruct (IH H) as (pre & nb & post & -> & Hpre & Hnb & ->).
      exists (x :: pre), nb, post. repeat split; try assumption.
      intros y [<- | Hy]; [exact Hne | now apply Hpre].
  - intros (pre & nb & post & -> & Hpre & Hnb & ->).
    now apply find_by_title_some.
Qed.

(** ** Phase 1 over a concatenation *)

Lemma submit_in_turn_app {W : Type} (h : handler W) (notebook_id : string)
  (urls1 urls2 : list string) :
  forall w : W,
  submit_in_turn h notebook_id (urls1 ++ urls2) w =
  (fst (submit_in_turn h notebook_id urls1 w) ++
   fst (submit_in_turn h notebook_id urls2
          (snd (submit_in_turn h notebook_id urls1 w))),
   snd (submit_in_turn h notebook_id urls2
          (snd (submit_in_turn h notebook_id urls1 w)))).
Proof.
  induction urls1 as [| url rest IH]; intros w; simpl.
  - now destruct (submit_in_turn h notebook_id urls2 w).
  - destruct (h _ (SourcesAddUrl notebook_id url false) w) as [r w1].
    rewrite IH.
    destruct (submit_in_turn h notebook_id rest w1) as [evs w2]; simpl.
    reflexivity.
Qed.

(** X3. Phase 1 on a concatenation of two URL lists is phase 1 on the first
    list followed by phase 1 on the second, started in the state the first
    left the client in: the traces follow one another, and the added ids and
    the failures of the second batch are appended to those of the first. *)
Theorem phase1_over_concatenation :
  forall (W : Type) (h : handler W) (w : W) (notebook_id : string)
         (urls1 urls2 : list string),
  let r1 := run h (add_urls_phase1 notebook_id urls1) w in
  let r2 := run h (add_urls_phase1 notebook_id urls2) (world r1) in
  exists added1 failed1 added2 failed2,
    value r1 = Ok (added1, failed1) /\
    value r2 = Ok (added2, failed2) /\
    run h (add_urls_phase1 notebook_id (urls1 ++ urls2)) w =
    Result (Ok (added1 ++ added2, failed1 ++ failed2))
           (trace r1 ++ trace r2) (world r2).
Proof.
  intros W h w notebook_id urls1 urls2 r1 r2; subst r1 r2.
  rewrite !add_urls_phase1_run. cbn [value trace world].
  do 4 eexists. split; [reflexivity |]. split; [reflexivity |].
  rewrite submit_in_turn_app. cbn [fst snd].
  now rewrite added_of_app, failed_of_app.
Qed.

(** ** The runs of a well-formed request, case by case *)

Section MainCases.

Variable lower : string -> string.
Context {W : Type} (h : handler W).

(** The trace of phase 2: empty, or the one wait. *)
Lemma phase2_trace_cases (notebook_id : string) (source_ids : list string)
  (timeout : float) (w : W) :
  let r3 := run h (wait_for_sources_phase2 notebook_id source_ids timeout) w in
  (source_ids = [] /\ trace r3 = []) \/
  (source_ids <> [] /\
   exists r, trace r3 = [EvWait notebook_id source_ids timeout r]).
Proof.
  cbv zeta. rewrite wait_for_sources_phase2_run.
  destruct source_ids as [| source_id rest]; [now left |].
  right. split; [discriminate |].
  destruct (h _ _ w) as [r w1]. now exists r.
Qed.

(** A request whose two members are present: the session is not acquired,
    or it is entered and then released after the body stopped in resolution,
    stopped in the wait, or wrote the normal report. *)
Lemma main_request_cases (target : string) (urls : list string) (w : W) :
  let res := run h (main lower (Json (Object (Some target) (Some urls)))) w in
  (exists e w',
     h _ FromStorage w = (Err e, w') /\
     res = Result (Ok 1) [EvFromStorage (Err e); EvDump (error_result e)] w')
  \/
  (exists e w0 w',
     h _ FromStorage w = (Ok tt, w0) /\ h _ AEnter w0 = (Err e, w') /\
     res = Result (Ok 1)
             [EvFromStorage (Ok tt); EvAEnter (Err e);
              EvDump (error_result e)] w')
  \/
  (exists w0 wa,
     h _ FromStorage w = (Ok tt, w0) /\ h _ AEnter w0 = (Ok tt, wa) /\
     let r1 := run h (resolve_notebook lower target) wa in
     match value r1 with
     | Err e1 =>
         exists rx wx,
           res = Result (Ok 1)
                   (EvFromStorage (Ok tt) :: EvAEnter (Ok tt) ::
                    trace r1 ++
                    [EvAExit (Some e1) rx;
                     EvDump (error_result
                               match rx with Ok _ => e1 | Err e' => e' end)])
                   wx
     | Ok ids =>
         let r2 := run h (add_urls_phase1 (fst ids) urls) (world r1) in
         let r3 :=
           run h (wait_for_sources_phase2 (fst ids) (added_of (trace r2))
                    default_timeout) (world r2) in
         match value r3 with
         | Err e3 =>
             exists rx wx,
               res = Result (Ok 1)
                       (EvFromStorage (Ok tt) :: EvAEnter (Ok tt) ::
                        trace r1 ++ trace r2 ++ trace r3 ++
                        [EvAExit (Some e3) rx;
                         EvDump (error_result
                                   match rx with
                                   | Ok _ => e3
                                   | Err e' => e'
                                   end)])
                       wx
         | Ok _ =>
             (exists wx,
                res = Result (Ok 0)
                        (EvFromStorage (Ok tt) :: EvAEnter (Ok tt) ::
                         trace r1 ++ trace r2 ++ trace r3 ++
                         [EvDump (success_report ids (trace r2));
                          EvAExit None (Ok tt)])
                        wx) \/
             (exists e' wx,
                res = Result (Ok 1)
                        (EvFromStorage (Ok tt) :: EvAEnter (Ok tt) ::
                         trace r1 ++ trace r2 ++ trace r3 ++
                         [EvDump (success_report ids (trace r2));
                          EvAExit None (Err e');
                          EvDump (error_result e')])
                        wx)
         end
     end).
Proof.
  cbv zeta. rewrite main_run_request.
  destruct (h _ FromStorage w) as [[[] | e0] w0];
    [| left; exists e0, w0; split; reflexivity].
  destruct (h _ AEnter w0) as [[[] | ea] wa] eqn:Hae;
    [| right; left; exists ea, w0, wa;
       split; [reflexivity | split; [exact Hae | reflexivity]]].
  right; right. exists w0, wa. split; [reflexivity |]. split; [exact Hae |].
  cbv zeta. rewrite session_body_run. cbv zeta.
  destruct (value (run h (resolve_notebook lower target) wa)) as [ids | e1].
  - match goal with
    | |- context [value (run h (wait_for_sources_phase2 ?a ?b ?c) ?d)] =>
        destruct (value (run h (wait_for_sources_phase2 a b c) d))
          as [[] | e3]
    end; cbn [value trace world in_flight].
    + match goal with
      | |- context [h unit (AExit None) ?x] =>
          destruct (h unit (AExit None) x) as [[[] | e'] wx]
      end.
      * left. exists wx. cbn [app]. now rewrite <- !app_assoc.
      * right. exists e', wx. cbn [app]. now rewrite <- !app_assoc.
    + match goal with
      | |- context [h unit (AExit (Some e3)) ?x] =>
          destruct (h unit (AExit (Some e3)) x) as [rx wx]
      end.
      exists rx, wx. destruct rx as [[] | e']; cbn [app];
        now rewrite <- !app_assoc.
  - cbn [value trace world in_flight].
    match goal with
    | |- context [h unit (AExit (Some e1)) ?x] =>
        destruct (h unit (AExit (Some e1)) x) as [rx wx]
    end.
    exists rx, wx. destruct rx as [[] | e']; cbn [app];
      now rewrite <- ?app_assoc.
Qed.

End MainCases.

(** ** Every run has one of the shapes *)

Lemma submit_in_turn_submissions {W : Type} (h : handler W)
  (notebook_id : string) (urls : list string) :
  forall w : W,
  submissions notebook_id urls (fst (submit_in_turn h notebook_id urls w)).
Proof.
  induction urls as [| url rest IH]; intros w; simpl; [constructor |].
  destruct (h _ (SourcesAddUrl notebook_id url false) w) as [r w1].
  specialize (IH w1).
  destruct (submit_in_turn h notebook_id rest w1) as [evs w2]; simpl in *.
  now constructor.
Qed.

Lemma phase2_waited {W : Type} (h : handler W) (notebook_id : string)
  (source_ids : list string) (w : W) :
  waited notebook_id source_ids
    (trace (run h (wait_for_sources_phase2 notebook_id source_ids
                     default_timeout) w)).
Proof.
  destruct (phase2_trace_cases h notebook_id source_ids default_timeout w)
    as [[Hnil ->] | [Hne [r ->]]]; now constructor.
Qed.

Lemma main_has_shape (lower : string -> string) {W : Type} (h : handler W)
  (stdin : stdin_content) (w : W) :
  exists status,
    value (run h (main lower stdin) w) = Ok status /\
    main_shape stdin status (trace (run h (main lower stdin) w)).
Proof.
  destruct (input_error stdin) as [e |] eqn:Hin.
  { rewrite (main_run_rejected lower h stdin e w Hin).
    exists 1. split; [reflexivity | now constructor]. }
  destruct stdin as [msg | [k | [target |] [urls |]]]; try discriminate Hin.
  destruct (main_request_cases lower h target urls w)
    as [(e & w' & _ & ->) | [(e & w0 & w' & _ & _ & ->) |
        (w0 & wa & _ & _ & Hbody)]].
  { exists 1. split; [reflexivity | constructor]. }
  { exists 1. split; [reflexivity | constructor]. }
  cbv zeta in Hbody.
  pose proof (resolve_notebook_events lower h target wa) as H1.
  destruct (value (run h (resolve_notebook lower target) wa)) as [ids | e1].
  2:{ destruct Hbody as (rx & wx & ->). exists 1.
      split; [reflexivity |]. now apply shape_unresolved. }
  set (r1 := run h (resolve_notebook lower target) wa) in *.
  set (r2 := run h (add_urls_phase1 (fst ids) urls) (world r1)) in *.
  assert (H2 : submissions (fst ids) urls (trace r2)).
  { subst r2. rewrite add_urls_phase1_run. cbn [trace].
    apply submit_in_turn_submissions. }
  pose proof (phase2_waited h (fst ids) (added_of (trace r2)) (world r2))
    as H3.
  destruct (value (run h (wait_for_sources_phase2 (fst ids) _ _) (world r2)))
    as [[] | e3].
  - destruct Hbody as [(wx & ->) | (e' & wx & ->)].
    + exists 0. split; [reflexivity |]. now apply shape_reported.
    + exists 1. split; [reflexivity |]. now apply shape_release_failed.
  - destruct Hbody as (rx & wx & ->). exists 1.
    split; [reflexivity |]. now apply shape_wait_failed with (ids := ids).
Qed.

(** ** Reading the parts of a shape *)

Lemma targets_of_app (tr1 tr2 : list event) :
  targets_of (tr1 ++ tr2) = targets_of tr1 ++ targets_of tr2.
Proof. event_induction tr1. Qed.

Lemma resolve_events_service (tr : list event) :
  forallb resolve_event tr = true ->
  targets_of tr = [] /\ forallb service_event tr = true.
Proof.
  induction tr as [| ev rest IH]; simpl; [now split |].
  destruct ev; simpl; try discriminate; exact IH.
Qed.

Lemma submissions_readers (nb : string) (urls : list string)
  (tr : list event) :
  submissions nb urls tr ->
  submitted_of tr = urls /\ waits_of tr = [] /\ stdout_of tr = [] /\
  Forall (eq nb) (targets_of tr) /\ forallb service_event tr = true /\
  List.length (added_of tr) + List.length (failed_of tr) = List.length urls.
Proof.
  induction 1 as [| url urls r tr _ (IH1 & IH2 & IH3 & IH4 & IH5 & IH6)];
    simpl; [now repeat split |].
  repeat split; try assumption.
  - now rewrite IH1.
  - now constructor.
  - destruct r; simpl; lia.
Qed.

Lemma waited_readers (nb : string) (ids : list string) (tr : list event) :
  waited nb ids tr ->
  submitted_of tr = [] /\ stdout_of tr = [] /\ added_of tr = [] /\
  failed_of tr = [] /\ Forall (eq nb) (targets_of tr) /\
  forallb service_event tr = true /\
  waits_of tr = match ids with
                | [] => []
                | _ :: _ => [(nb, ids, default_timeout)]
                end.
Proof.
  intros [Hnil | r Hne]; simpl.
  - subst ids. now repeat split.
  - destruct ids; [now elim Hne |]. repeat split. now constructor.
Qed.

Lemma service_events_no_session (tr : list event) :
  forallb service_event tr = true ->
  filter is_release tr = [] /\ filter is_entered tr = [] /\
  stdout_of tr = [].
Proof.
  induction tr as [| ev rest IH]; simpl; [now repeat split |].
  destruct ev; simpl; try discriminate; exact IH.
Qed.

(** The facts the properties below need of the three parts of a body. *)
Lemma body_readers (nb : string) (urls : list string)
  (tr1 tr2 tr3 : list event) :
  forallb resolve_event tr1 = true ->
  submissions nb urls tr2 ->
  waited nb (added_of tr2) tr3 ->
  submitted_of (tr1 ++ tr2 ++ tr3) = urls /\
  stdout_of (tr1 ++ tr2 ++ tr3) = [] /\
  Forall (eq nb) (targets_of (tr1 ++ tr2 ++ tr3)) /\
  forallb service_event (tr1 ++ tr2 ++ tr3) = true /\
  added_of (tr1 ++ tr2 ++ tr3) = added_of tr2 /\
  failed_of (tr1 ++ tr2 ++ tr3) = failed_of tr2.
Proof.
  intros H1 H2 H3.
  destruct (resolve_events_quiet tr1 H1) as (Ha1 & Hf1 & Hs1 & Hw1 & Ho1).
  destruct (resolve_events_service tr1 H1) as (Ht1 & Hv1).
  destruct (submissions_readers nb urls tr2 H2) as (Hs2 & Hw2 & Ho2 & Ht2 & Hv2 & _).
  destruct (waited_readers nb (added_of tr2) tr3 H3) as (Hs3 & Ho3 & Ha3 & Hf3 & Ht3 & Hv3 & _).
  rewrite !submitted_of_app, !stdout_of_app, !targets_of_app, !forallb_app,
    !added_of_app, !failed_of_app.
  rewrite Hs1, Hs2, Hs3, Ho1, Ho2, Ho3, Ht1, Hv1, Hv2, Hv3, Ha1, Ha3, Hf1,
    Hf3.
  rewrite !app_nil_r. cbn [app andb].
  repeat split. apply Forall_app. now split.
Qed.

(** ** Properties of every run of [main] *)

(** Groups the three parts of a body apart from what follows them. *)
Ltac regroup :=
  match goal with
  | |- context [?a ++ ?b ++ ?c ++ ?t :: ?u] =>
      replace (a ++ b ++ c ++ t :: u) with ((a ++ b ++ c) ++ t :: u)
        by (now rewrite <- !app_assoc)
  end.

(** X4. Against a client whose calls return or raise an instance of
    [Exception] (the type [exn]; a signal that derives
    from [BaseException] only passes every [except] clause of the script and
    can stop the loop midway), a run of [main] submits all the URLs of the
    request, in order, or none of them; a run that exits with status 0
    submitted them all. *)
Theorem main_submits_all_or_nothing :
  forall (lower : string -> string) (W : Type) (h : handler W) (w : W)
         (stdin : stdin_content),
  let res := run h (main lower stdin) w in
  (submitted_of (trace res) = [] \/
   exists target,
     stdin = Json (Object (Some target) (Some (submitted_of (trace res))))) /\
  (value res = Ok 0 ->
   exists target,
     stdin = Json (Object (Some target) (Some (submitted_of (trace res))))).
Proof.
  intros lower W h w stdin res; subst res.
  destruct (main_has_shape lower h stdin w) as (status & Hv & Hs).
  rewrite Hv. revert Hs.
  generalize (trace (run h (main lower stdin) w)) as tr.
  intros tr Hs.
  destruct Hs as [stdin e Hin | target urls e | target urls e
                 | target urls tr1 e rx H1
                 | target urls ids tr1 tr2 tr3 e rx H1 H2 H3
                 | target urls ids tr1 tr2 tr3 H1 H2 H3
                 | target urls ids tr1 tr2 tr3 e H1 H2 H3];
    try (split; [left; reflexivity | discriminate]).
  - split; [left | discriminate].
    destruct (resolve_events_quiet tr1 H1) as (_ & _ & Hs1 & _).
    cbn [submitted_of]. now rewrite submitted_of_app, Hs1.
  - destruct (body_readers (fst ids) urls tr1 tr2 tr3 H1 H2 H3)
      as (Hs & _).
    split; [right | discriminate].
    exists target. regroup. cbn [submitted_of].
    rewrite submitted_of_app, Hs. cbn [submitted_of]. now rewrite app_nil_r.
  - destruct (body_readers (fst ids) urls tr1 tr2 tr3 H1 H2 H3)
      as (Hs & _).
    assert (Hsub : submitted_of
                     (EvFromStorage (Ok tt) :: EvAEnter (Ok tt) ::
                      tr1 ++ tr2 ++ tr3 ++
                      [EvDump (success_report ids tr2);
                       EvAExit None (Ok tt)]) = urls).
    { regroup. cbn [submitted_of].
      rewrite submitted_of_app, Hs. cbn [submitted_of].
      now rewrite app_nil_r. }
    rewrite Hsub. split; [right |]; now exists target.
  - destruct (body_readers (fst ids) urls tr1 tr2 tr3 H1 H2 H3)
      as (Hs & _).
    split; [right | discriminate].
    exists target. regroup. cbn [submitted_of].
    rewrite submitted_of_app, Hs. cbn [submitted_of]. now rewrite app_nil_r.
Qed.

(** X5. In a run of [main] every submission and the wait are addressed to
    one and the same notebook, and when the run exits with status 0 that
    notebook is the one whose id the report carries. *)
Theorem main_addresses_resolved_notebook :
  forall (lower : string -> string) (W : Type) (h : handler W) (w : W)
         (stdin : stdin_content),
  let res := run h (main lower stdin) w in
  (exists nb, Forall (eq nb) (targets_of (trace res))) /\
  (value res = Ok 0 ->
   exists doc,
     stdout_of (trace res) = [doc] /\
     Forall (eq (notebook_id doc)) (targets_of (trace res))).
Proof.
  intros lower W h w stdin res; subst res.
  destruct (main_has_shape lower h stdin w) as (status & Hv & Hs).
  rewrite Hv. revert Hs.
  generalize (trace (run h (main lower stdin) w)) as tr.
  intros tr Hs.
  destruct Hs as [stdin e Hin | target urls e | target urls e
                 | target urls tr1 e rx H1
                 | target urls ids tr1 tr2 tr3 e rx H1 H2 H3
                 | target urls ids tr1 tr2 tr3 H1 H2 H3
                 | target urls ids tr1 tr2 tr3 e H1 H2 H3];
    try (split; [exists ""%string; constructor | discriminate]).
  - split; [exists ""%string | discriminate].
    destruct (resolve_events_service tr1 H1) as (Ht1 & _).
    cbn [targets_of]. rewrite targets_of_app, Ht1. constructor.
  - destruct (body_readers (fst ids) urls tr1 tr2 tr3 H1 H2 H3)
      as (_ & _ & Ht & _).
    split; [exists (fst ids) | discriminate].
    regroup. cbn [targets_of]. rewrite targets_of_app. cbn [targets_of].
    now rewrite app_nil_r.
  - destruct (body_readers (fst ids) urls tr1 tr2 tr3 H1 H2 H3)
      as (_ & Ho & Ht & _).
    assert (Htg : Forall (eq (fst ids))
                    (targets_of
                       (EvFromStorage (Ok tt) :: EvAEnter (Ok tt) ::
                        tr1 ++ tr2 ++ tr3 ++
                        [EvDump (success_report ids tr2);
                         EvAExit None (Ok tt)]))).
    { regroup. cbn [targets_of]. rewrite targets_of_app. cbn [targets_of].
      now rewrite app_nil_r. }
    split; [now exists (fst ids) |]. intros _.
    exists (success_report ids tr2). split; [| exact Htg].
    regroup. cbn [stdout_of]. rewrite stdout_of_app, Ho. reflexivity.
  - destruct (body_readers (fst ids) urls tr1 tr2 tr3 H1 H2 H3)
      as (_ & _ & Ht & _).
    split; [exists (fst ids) | discriminate].
    regroup. cbn [targets_of]. rewrite targets_of_app. cbn [targets_of].
    now rewrite app_nil_r.
Qed.

(** X6. A run of [main] releases the session exactly as many times as it
    entered it, and it enters it at most once: [__aexit__] is awaited once
    on every run whose [__aenter__] returned, whatever happened in between,
    and never on a run that did not get that far. *)
Theorem session_released_once_iff_entered :
  forall (lower : string -> string) (W : Type) (h : handler W) (w : W)
         (stdin : stdin_content),
  let tr := trace (run h (main lower stdin) w) in
  List.length (filter is_release tr) = List.length (filter is_entered tr) /\
  List.length (filter is_entered tr) <= 1.
Proof.
  intros lower W h w stdin tr; subst tr.
  destruct (main_has_shape lower h stdin w) as (status & _ & Hs).
  revert Hs.
  generalize (trace (run h (main lower stdin) w)) as tr.
  intros tr Hs.
  destruct Hs as [stdin e Hin | target urls e | target urls e
                 | target urls tr1 e rx H1
                 | target urls ids tr1 tr2 tr3 e rx H1 H2 H3
                 | target urls ids tr1 tr2 tr3 H1 H2 H3
                 | target urls ids tr1 tr2 tr3 e H1 H2 H3];
    try (cbn; split; [reflexivity | lia]).
  - destruct (resolve_events_service tr1 H1) as (_ & Hv1).
    destruct (service_events_no_session tr1 Hv1) as (Hr & He & _).
    cbn [filter is_release is_entered].
    rewrite !filter_app, Hr, He. cbn. split; [reflexivity | lia].
  - destruct (body_readers (fst ids) urls tr1 tr2 tr3 H1 H2 H3)
      as (_ & _ & _ & Hv & _).
    destruct (service_events_no_session _ Hv) as (Hr & He & _).
    regroup. cbn [filter is_release is_entered].
    rewrite (filter_app is_release (tr1 ++ tr2 ++ tr3)),
      (filter_app is_entered (tr1 ++ tr2 ++ tr3)), Hr, He.
    cbn. split; [reflexivity | lia].
  - destruct (body_readers (fst ids) urls tr1 tr2 tr3 H1 H2 H3)
      as (_ & _ & _ & Hv & _).
    destruct (service_events_no_session _ Hv) as (Hr & He & _).
    regroup. cbn [filter is_release is_entered].
    rewrite (filter_app is_release (tr1 ++ tr2 ++ tr3)),
      (filter_app is_entered (tr1 ++ tr2 ++ tr3)), Hr, He.
    cbn. split; [reflexivity | lia].
  - destruct (body_readers (fst ids) urls tr1 tr2 tr3 H1 H2 H3)
      as (_ & _ & _ & Hv & _).
    destruct (service_events_no_session _ Hv) as (Hr & He & _).
    regroup. cbn [filter is_release is_entered].
    rewrite (filter_app is_release (tr1 ++ tr2 ++ tr3)),
      (filter_app is_entered (tr1 ++ tr2 ++ tr3)), Hr, He.
    cbn. split; [reflexivity | lia].
Qed.

(** X7. When the session cannot be acquired, because [from_storage] raises
    or because [__aenter__] raises, [main] writes the degenerate report with
    the message of that exception and exits with status 1; it makes no call
    on the remote service and does not await [__aexit__]. *)
Theorem session_acquisition_failure_is_fatal :
  forall (lower : string -> string) (W : Type) (h : handler W) (w : W)
         (target : string) (urls : list string) (e : exn),
  (forall w1,
     h _ FromStorage w = (Err e, w1) ->
     run h (main lower (Json (Object (Some target) (Some urls)))) w =
     Result (Ok 1) [EvFromStorage (Err e); EvDump (error_result e)] w1) /\
  (forall w1 w2,
     h _ FromStorage w = (Ok tt, w1) ->
     h _ AEnter w1 = (Err e, w2) ->
     run h (main lower (Json (Object (Some target) (Some urls)))) w =
     Result (Ok 1)
       [EvFromStorage (Ok tt); EvAEnter (Err e); EvDump (error_result e)]
       w2).
Proof.
  intros lower W h w target urls e. split.
  - intros w1 Hfs. now rewrite main_run_request, Hfs.
  - intros w1 w2 Hfs Hae. now rewrite main_run_request, Hfs, Hae.
Qed.

Lemma session_acquisition_failure_examples :
  run (mock_client storage_fails_mock)
      (main ascii_lower (Json (Object (Some "Test") (Some three_urls)))) 0 =
    Result (Ok 1)
      [EvFromStorage (Err (builtin_error "not logged in"));
       EvDump (Report "" "" 0 0 ["Script error: not logged in"])] 0 /\
  run (mock_client enter_fails_mock)
      (main ascii_lower (Json (Object (Some "Test") (Some three_urls)))) 0 =
    Result (Ok 1)
      [EvFromStorage (Ok tt);
       EvAEnter (Err (builtin_error "cannot connect"));
       EvDump (Report "" "" 0 0 ["Script error: cannot connect"])] 0.
Proof.
  split.
  - destruct (session_acquisition_failure_is_fatal ascii_lower nat
                (mock_client storage_fails_mock) 0 "Test" three_urls
                (builtin_error "not logged in")) as [H _].
    exact (H 0 eq_refl).
  - destruct (session_acquisition_failure_is_fatal ascii_lower nat
                (mock_client enter_fails_mock) 0 "Test" three_urls
                (builtin_error "cannot connect")) as [_ H].
    exact (H 0 0 eq_refl eq_refl).
Defined.

(** X8. Against a client whose calls return or raise an instance of
    [Exception] (the type [exn]; a signal that derives
    from [BaseException] only is not caught by the outer [except Exception]
    and ends the process without a report), no exception leaves [main] and
    its exit status is 0 or 1.  With status 1 the last document on standard
    output is the degenerate report and at most one document precedes it.
    With status 0 the only document is a normal report, in which the number
    of error strings equals the [failed] count; the degenerate report has
    one error string and a [failed] count of 0, so the two kinds can be told
    apart. *)
Theorem exit_status_and_last_report :
  forall (lower : string -> string) (W : Type) (h : handler W) (w : W)
         (stdin : stdin_content),
  let res := run h (main lower stdin) w in
  (value res = Ok 0 \/ value res = Ok 1) /\
  (value res = Ok 1 ->
   exists pre e,
     stdout_of (trace res) = pre ++ [error_result e] /\
     List.length pre <= 1) /\
  (value res = Ok 0 ->
   exists doc,
     stdout_of (trace res) = [doc] /\
     List.length (errors doc) = failed doc) /\
  (forall e,
     List.length (errors (error_result e)) = 1 /\
     failed (error_result e) = 0).
Proof.
  intros lower W h w stdin res; subst res.
  destruct (main_has_shape lower h stdin w) as (status & Hv & Hs).
  rewrite Hv. revert Hs.
  generalize (trace (run h (main lower stdin) w)) as tr.
  intros tr Hs.
  assert (Hdeg : forall e,
            List.length (errors (error_result e)) = 1 /\
            failed (error_result e) = 0) by (intros e; now split).
  destruct Hs as [stdin e Hin | target urls e | target urls e
                 | target urls tr1 e rx H1
                 | target urls ids tr1 tr2 tr3 e rx H1 H2 H3
                 | target urls ids tr1 tr2 tr3 H1 H2 H3
                 | target urls ids tr1 tr2 tr3 e H1 H2 H3].
  - repeat split; try (now right); try discriminate; try apply Hdeg.
    intros _. exists [], e. now split; [| cbn; lia].
  - repeat split; try (now right); try discriminate; try apply Hdeg.
    intros _. exists [], e. now split; [| cbn; lia].
  - repeat split; try (now right); try discriminate; try apply Hdeg.
    intros _. exists [], e. now split; [| cbn; lia].
  - destruct (resolve_events_quiet tr1 H1) as (_ & _ & _ & _ & Ho1).
    repeat split; try (now right); try discriminate; try apply Hdeg.
    intros _. exists [], (reported e rx).
    split; [| cbn; lia].
    cbn [stdout_of]. rewrite stdout_of_app, Ho1. reflexivity.
  - destruct (body_readers (fst ids) urls tr1 tr2 tr3 H1 H2 H3)
      as (_ & Ho & _).
    repeat split; try (now right); try discriminate; try apply Hdeg.
    intros _. exists [], (reported e rx).
    split; [| cbn; lia].
    regroup. cbn [stdout_of]. rewrite stdout_of_app, Ho. reflexivity.
  - destruct (body_readers (fst ids) urls tr1 tr2 tr3 H1 H2 H3)
      as (_ & Ho & _).
    repeat split; try (now left); try discriminate; try apply Hdeg.
    intros _. exists (success_report ids tr2).
    split; [| cbn; apply length_map].
    regroup. cbn [stdout_of]. rewrite stdout_of_app, Ho. reflexivity.
  - destruct (body_readers (fst ids) urls tr1 tr2 tr3 H1 H2 H3)
      as (_ & Ho & _).
    repeat split; try (now right); try discriminate; try apply Hdeg.
    intros _. exists [success_report ids tr2], e.
    split; [| cbn; lia].
    regroup. cbn [stdout_of]. rewrite stdout_of_app, Ho. reflexivity.
Qed.

(** X9. The counts of the normal report add up: in a run of [main] that
    exits with status 0 on a request with the URL list [urls], the report's
    [added] plus its [failed] is the number of URLs. *)
Theorem report_counts_cover_urls :
  forall (lower : string -> string) (W : Type) (h : handler W) (w : W)
         (target : string) (urls : list string),
  let res :=
    run h (main lower (Json (Object (Some target) (Some urls)))) w in
  value res = Ok 0 ->
  exists doc,
    stdout_of (trace res) = [doc] /\
    added doc + failed doc = List.length urls.
Proof.
  intros lower W h w target urls res; subst res.
  destruct (main_has_shape lower h
              (Json (Object (Some target) (Some urls))) w)
    as (status & Hv & Hs).
  rewrite Hv. revert Hs.
  generalize (trace (run h (main lower
                              (Json (Object (Some target) (Some urls)))) w))
    as tr.
  intros tr Hs Hexit.
  inversion Hs; subst; try discriminate Hexit.
  match goal with
  | H1 : forallb resolve_event ?tr1 = true,
    H2 : submissions (fst ?ids) urls ?tr2,
    H3 : waited (fst ?ids) (added_of ?tr2) ?tr3 |- _ =>
      destruct (body_readers (fst ids) urls tr1 tr2 tr3 H1 H2 H3)
        as (_ & Ho & _);
      destruct (submissions_readers (fst ids) urls tr2 H2)
        as (_ & _ & _ & _ & _ & Hsum);
      exists (success_report ids tr2); split; [| exact Hsum];
      regroup; cbn [stdout_of]; rewrite stdout_of_app, Ho; reflexivity
  end.
Qed.

Lemma report_counts_cover_three_urls :
  let res :=
    run (mock_client second_rejected_mock)
        (main ascii_lower (Json (Object (Some "Test") (Some three_urls)))) 0 in
  value res = Ok 0 /\
  exists doc,
    stdout_of (trace res) = [doc] /\
    added doc + failed doc = List.length three_urls.
Proof.
  cbv zeta. split; [reflexivity |].
  apply (report_counts_cover_urls ascii_lower nat
           (mock_client second_rejected_mock) 0 "Test" three_urls).
  reflexivity.
Defined.

(** X10. A request with an empty URL list is served without a submission
    and without a wait.  When it exits with status 0, the session was
    entered, the resolution that ran in it returned a notebook, the run is
    that resolution followed by the write of one report and the release,
    and the report carries the id and the title the resolution returned
    with zero added, zero failed and no errors. *)
Theorem empty_url_list_is_served :
  forall (lower : string -> string) (W : Type) (h : handler W) (w : W)
         (target : string),
  let res := run h (main lower (Json (Object (Some target) (Some [])))) w in
  submitted_of (trace res) = [] /\
  waits_of (trace res) = [] /\
  (value res = Ok 0 ->
   exists w0 wa ids,
     h _ FromStorage w = (Ok tt, w0) /\
     h _ AEnter w0 = (Ok tt, wa) /\
     value (run h (resolve_notebook lower target) wa) = Ok ids /\
     trace res =
       EvFromStorage (Ok tt) :: EvAEnter (Ok tt) ::
       trace (run h (resolve_notebook lower target) wa) ++
       [EvDump (Report (fst ids) (snd ids) 0 0 []); EvAExit None (Ok tt)] /\
     stdout_of (trace res) = [Report (fst ids) (snd ids) 0 0 []]).
Proof.
  intros lower W h w target res; subst res.
  destruct (main_request_cases lower h target [] w)
    as [(e & w' & Hfs & Hres) | [(e & w0 & w' & Hfs & Hae & Hres) |
        (w0 & wa & Hfs & Hae & Hbody)]].
  { rewrite Hres. repeat split. discriminate. }
  { rewrite Hres. repeat split. discriminate. }
  cbv zeta in Hbody.
  destruct (resolve_events_quiet _
              (resolve_notebook_events lower h target wa))
    as (_ & _ & Hs1 & Hw1 & Ho1).
  destruct (value (run h (resolve_notebook lower target) wa))
    as [ids | e1] eqn:Hr1.
  2:{ destruct Hbody as (rx & wx & Hres). rewrite Hres.
      cbn [trace value submitted_of waits_of].
      rewrite submitted_of_app, waits_of_app, Hs1, Hw1.
      repeat split. discriminate. }
  cbn [add_urls_phase1 add_urls_loop wait_for_sources_phase2 run value trace
       world added_of app] in Hbody.
  destruct Hbody as [(wx & Hres) | (e' & wx & Hres)]; rewrite Hres;
    cbn [trace value submitted_of waits_of];
    rewrite submitted_of_app, waits_of_app, Hs1, Hw1;
    (split; [reflexivity |]); (split; [reflexivity |]);
    [| discriminate].
  intros _. exists w0, wa, ids.
  split; [exact Hfs |]. split; [exact Hae |]. split; [exact Hr1 |].
  split; [reflexivity |].
  cbn [stdout_of]. rewrite stdout_of_app, Ho1. reflexivity.
Qed.

(** An empty request against a client whose lookup by id succeeds. *)
Lemma empty_request_example :
  let res :=
    run (mock_client happy_mock)
        (main ascii_lower (Json (Object (Some "Test") (Some [])))) 0 in
  value res = Ok 0 /\
  exists w0 wa ids,
    mock_client happy_mock _ FromStorage 0 = (Ok tt, w0) /\
    mock_client happy_mock _ AEnter w0 = (Ok tt, wa) /\
    value (run (mock_client happy_mock)
             (resolve_notebook ascii_lower "Test") wa) = Ok ids /\
    trace res =
      EvFromStorage (Ok tt) :: EvAEnter (Ok tt) ::
      trace (run (mock_client happy_mock)
               (resolve_notebook ascii_lower "Test") wa) ++
      [EvDump (Report (fst ids) (snd ids) 0 0 []); EvAExit None (Ok tt)] /\
    stdout_of (trace res) = [Report (fst ids) (snd ids) 0 0 []].
Proof.
  cbv zeta. split; [reflexivity |].
  destruct (empty_url_list_is_served ascii_lower nat
              (mock_client happy_mock) 0 "Test") as (_ & _ & H).
  exact (H eq_refl).
Defined.

(** X11. What the degenerate report says of malformed input: text that is
    not JSON is reported with the message of [json.load]; a document
    without a ["notebook"] member is reported as the missing key
    ['notebook'], also when ["urls"] is missing too; a document with a
    ["notebook"] but no ["urls"] member as the missing key ['urls'].  In
    each case that report is the whole of standard output. *)
Theorem malformed_input_report_names_the_cause :
  forall (lower : string -> string) (W : Type) (h : handler W) (w : W),
  (forall msg,
     stdout_of (trace (run h (main lower (NotJson msg)) w)) =
     [Report "" "" 0 0 [("Script error: " ++ msg)%string]]) /\
  (forall urls,
     stdout_of (trace (run h (main lower (Json (Object None urls))) w)) =
     [Report "" "" 0 0 ["Script error: 'notebook'"]]) /\
  (forall target,
     stdout_of
       (trace (run h (main lower (Json (Object (Some target) None))) w)) =
     [Report "" "" 0 0 ["Script error: 'urls'"]]).
Proof.
  intros lower W h w. split; [| split].
  - intros msg.
    now rewrite (main_run_rejected lower h (NotJson msg)
                   (builtin_error msg) w eq_refl).
  - intros urls.
    now rewrite (main_run_rejected lower h (Json (Object None urls))
                   (key_error "notebook") w eq_refl).
  - intros target.
    now rewrite (main_run_rejected lower h (Json (Object (Some target) None))
                   (key_error "urls") w eq_refl).
Qed.

(** ** The client is used inside the session only *)

Lemma service_split (body tail pre post : list event) (ev : event) :
  forallb service_event body = true ->
  filter service_event tail = [] ->
  body ++ tail = pre ++ ev :: post ->
  service_event ev = true ->
  forallb service_event pre = true.
Proof.
  revert pre. induction body as [| b body IH]; intros pre Hb Ht Heq Hev.
  - simpl in Heq. subst tail. rewrite filter_app in Ht. simpl in Ht.
    rewrite Hev in Ht. now destruct (filter service_event pre).
  - destruct pre as [| p pre]; [reflexivity |].
    simpl in Heq. inversion Heq; subst p.
    simpl in Hb. apply andb_prop in Hb. destruct Hb as [Hb1 Hb2].
    simpl. rewrite Hb1. simpl. now apply (IH pre).
Qed.

Lemma no_service_no_split (tr pre post : list event) (ev : event) :
  filter service_event tr = [] ->
  service_event ev = true ->
  tr <> pre ++ ev :: post.
Proof.
  intros Hf Hev ->. rewrite filter_app in Hf. simpl in Hf.
  rewrite Hev in Hf. now destruct (filter service_event pre).
Qed.

(** The part of a run between [__aenter__] and a call on the service. *)
Lemma entered_split (body tail pre post : list event) (ev : event) :
  forallb service_event body = true ->
  filter service_event tail = [] ->
  EvFromStorage (Ok tt) :: EvAEnter (Ok tt) :: body ++ tail =
    pre ++ ev :: post ->
  service_event ev = true ->
  In (EvAEnter (Ok tt)) pre /\ filter is_release pre = [].
Proof.
  intros Hb Ht Heq Hev.
  destruct pre as [| p1 [| p2 pre]]; simpl in Heq.
  - inversion Heq; subst ev. discriminate Hev.
  - inversion Heq; subst ev. discriminate Hev.
  - inversion Heq; subst p1 p2.
    split; [right; now left |].
    assert (Hpre := service_split body tail pre post ev Hb Ht H2 Hev).
    simpl. now destruct (service_events_no_session pre Hpre).
Qed.

(** X12. Every call [main] makes on the remote service, be it a lookup, a
    listing, a creation, a submission or the wait, comes after [__aenter__]
    has returned and before [__aexit__] is awaited: the client is never used
    outside its session. *)
Theorem service_called_inside_session_only :
  forall (lower : string -> string) (W : Type) (h : handler W) (w : W)
         (stdin : stdin_content) (pre post : list event) (ev : event),
  trace (run h (main lower stdin) w) = pre ++ ev :: post ->
  service_event ev = true ->
  In (EvAEnter (Ok tt)) pre /\ filter is_release pre = [].
Proof.
  intros lower W h w stdin pre post ev.
  destruct (main_has_shape lower h stdin w) as (status & _ & Hs).
  revert Hs.
  generalize (trace (run h (main lower stdin) w)) as tr.
  intros tr Hs Heq Hev.
  destruct Hs as [stdin e Hin | target urls e | target urls e
                 | target urls tr1 e rx H1
                 | target urls ids tr1 tr2 tr3 e rx H1 H2 H3
                 | target urls ids tr1 tr2 tr3 H1 H2 H3
                 | target urls ids tr1 tr2 tr3 e H1 H2 H3];
    try (exfalso; revert Heq;
         now apply no_service_no_split).
  - destruct (resolve_events_service tr1 H1) as (_ & Hv1).
    now apply (entered_split tr1
                 [EvAExit (Some e) rx; EvDump (error_result (reported e rx))]
                 pre post ev).
  - destruct (body_readers (fst ids) urls tr1 tr2 tr3 H1 H2 H3)
      as (_ & _ & _ & Hv & _).
    revert Heq. regroup. intros Heq.
    now apply (entered_split (tr1 ++ tr2 ++ tr3)
                 [EvAExit (Some e) rx; EvDump (error_result (reported e rx))]
                 pre post ev).
  - destruct (body_readers (fst ids) urls tr1 tr2 tr3 H1 H2 H3)
      as (_ & _ & _ & Hv & _).
    revert Heq. regroup. intros Heq.
    now apply (entered_split (tr1 ++ tr2 ++ tr3)
                 [EvDump (success_report ids tr2); EvAExit None (Ok tt)]
                 pre post ev).
  - destruct (body_readers (fst ids) urls tr1 tr2 tr3 H1 H2 H3)
      as (_ & _ & _ & Hv & _).
    revert Heq. regroup. intros Heq.
    now apply (entered_split (tr1 ++ tr2 ++ tr3)
                 [EvDump (success_report ids tr2); EvAExit None (Err e);
                  EvDump (error_result e)]
                 pre post ev).
Qed.

Lemma first_submission_is_inside_session :
  let pre :=
    [EvFromStorage (Ok tt); EvAEnter (Ok tt);
     EvGet "Test" (Ok (Notebook.Make "nb-real-id" "Test"))] in
  let ev :=
    EvAddUrl "nb-real-id" "https://example.com" false
      (Ok (Source.Make "src-1")) in
  let post :=
    [EvWait "nb-real-id" ["src-1"] default_timeout (Ok tt);
     EvDump (Report "nb-real-id" "Test" 1 0 []);
     EvAExit None (Ok tt)] in
  trace (run (mock_client happy_mock)
           (main ascii_lower
              (Json (Object (Some "Test") (Some ["https://example.com"]))))
           0) = pre ++ ev :: post /\
  service_event ev = true /\
  In (EvAEnter (Ok tt)) pre /\ filter is_release pre = [].
Proof.
  cbv zeta. split; [reflexivity |]. split; [reflexivity |].
  exact (service_called_inside_session_only ascii_lower nat
           (mock_client happy_mock) 0
           (Json (Object (Some "Test") (Some ["https://example.com"])))
           [EvFromStorage (Ok tt); EvAEnter (Ok tt);
            EvGet "Test" (Ok (Notebook.Make "nb-real-id" "Test"))]
           [EvWait "nb-real-id" ["src-1"] default_timeout (Ok tt);
            EvDump (Report "nb-real-id" "Test" 1 0 []);
            EvAExit None (Ok tt)]
           (EvAddUrl "nb-real-id" "https://example.com" false
              (Ok (Source.Make "src-1")))
           eq_refl eq_refl).
Defined.

(** ** Nothing follows a report but the release *)

Lemma write_split_tail (body tail pre post : list event) (doc : report) :
  forallb service_event body = true ->
  body ++ tail = pre ++ EvDump doc :: post ->
  exists pre', tail = pre' ++ EvDump doc :: post.
Proof.
  revert pre. induction body as [| b body IH]; intros pre Hb Heq.
  - now exists pre.
  - simpl in Hb. apply andb_prop in Hb. destruct Hb as [Hb1 Hb2].
    destruct pre as [| p pre]; simpl in Heq; inversion Heq; subst.
    + discriminate Hb1.
    + now apply (IH pre).
Qed.

(** Splits an explicit list at a write, in every way it can be. *)
Ltac split_at_write H :=
  match type of H with
  | _ = ?pre' ++ _ :: _ =>
      destruct pre' as [| ? [| ? [| ? [| ? ?]]]];
      simpl in H; inversion H; subst
  end.

Ltac after_write :=
  split;
  [ first [ left; split; [reflexivity | eexists; reflexivity]
          | right; left; reflexivity
          | right; right; eexists; reflexivity ]
  | reflexivity ].

(** X13. Whatever [main] does after it has written a document to standard
    output is one of three things: nothing, and the document is then a
    degenerate report; the release of the session, which returns; or the
    release of the session, which raises, followed by the degenerate report
    of that exception.  In particular no call on the remote service
    follows a write. *)
Theorem no_service_call_after_a_report :
  forall (lower : string -> string) (W : Type) (h : handler W) (w : W)
         (stdin : stdin_content) (pre post : list event) (doc : report),
  trace (run h (main lower stdin) w) = pre ++ EvDump doc :: post ->
  ((post = [] /\ exists e, doc = error_result e) \/
   post = [EvAExit None (Ok tt)] \/
   (exists e, post = [EvAExit None (Err e); EvDump (error_result e)])) /\
  filter service_event post = [].
Proof.
  intros lower W h w stdin pre post doc.
  destruct (main_has_shape lower h stdin w) as (status & _ & Hs).
  revert Hs.
  generalize (trace (run h (main lower stdin) w)) as tr.
  intros tr Hs Heq.
  assert (Hentered : forall body tail,
            forallb service_event body = true ->
            EvFromStorage (Ok tt) :: EvAEnter (Ok tt) :: body ++ tail =
              pre ++ EvDump doc :: post ->
            exists pre', tail = pre' ++ EvDump doc :: post).
  { intros body tail Hb Hsplit.
    destruct pre as [| p1 [| p2 pre']]; simpl in Hsplit;
      inversion Hsplit; subst.
    now apply (write_split_tail body tail pre' post doc). }
  destruct Hs as [stdin e Hin | target urls e | target urls e
                 | target urls tr1 e rx H1
                 | target urls ids tr1 tr2 tr3 e rx H1 H2 H3
                 | target urls ids tr1 tr2 tr3 H1 H2 H3
                 | target urls ids tr1 tr2 tr3 e H1 H2 H3].
  - split_at_write Heq. after_write.
  - split_at_write Heq. after_write.
  - split_at_write Heq. after_write.
  - destruct (resolve_events_service tr1 H1) as (_ & Hv1).
    destruct (Hentered tr1
                [EvAExit (Some e) rx; EvDump (error_result (reported e rx))]
                Hv1 Heq) as [pre' Htail].
    split_at_write Htail. after_write.
  - destruct (body_readers (fst ids) urls tr1 tr2 tr3 H1 H2 H3)
      as (_ & _ & _ & Hv & _).
    revert Heq. regroup. intros Heq.
    destruct (Hentered (tr1 ++ tr2 ++ tr3)
                [EvAExit (Some e) rx; EvDump (error_result (reported e rx))]
                Hv Heq) as [pre' Htail].
    split_at_write Htail. after_write.
  - destruct (body_readers (fst ids) urls tr1 tr2 tr3 H1 H2 H3)
      as (_ & _ & _ & Hv & _).
    revert Heq. regroup. intros Heq.
    destruct (Hentered (tr1 ++ tr2 ++ tr3)
                [EvDump (success_report ids tr2); EvAExit None (Ok tt)]
                Hv Heq) as [pre' Htail].
    split_at_write Htail. after_write.
  - destruct (body_readers (fst ids) urls tr1 tr2 tr3 H1 H2 H3)
      as (_ & _ & _ & Hv & _).
    revert Heq. regroup. intros Heq.
    destruct (Hentered (tr1 ++ tr2 ++ tr3)
                [EvDump (success_report ids tr2); EvAExit None (Err e);
                 EvDump (error_result e)]
                Hv Heq) as [pre' Htail].
    split_at_write Htail; after_write.
Qed.

Lemma nothing_after_the_report_of_three :
  let pre :=
    [EvFromStorage (Ok tt); EvAEnter (Ok tt);
     EvGet "Test" (Ok (Notebook.Make "nb-real-id" "Test"));
     EvAddUrl "nb-real-id" "https://a.com" false (Ok (Source.Make "src-1"));
     EvAddUrl "nb-real-id" "https://bad.com" false
       (Err (raise_of SourceAddError "bad url"));
     EvAddUrl "nb-real-id" "https://c.com" false (Ok (Source.Make "src-1"));
     EvWait "nb-real-id" ["src-1"; "src-1"] default_timeout (Ok tt)] in
  let doc := Report "nb-real-id" "Test" 2 1 ["https://bad.com: bad url"] in
  let post := [EvAExit None (Ok tt)] in
  trace (run (mock_client second_rejected_mock)
           (main ascii_lower (Json (Object (Some "Test") (Some three_urls))))
           0) = pre ++ EvDump doc :: post /\
  ((post = [] /\ exists e, doc = error_result e) \/
   post = [EvAExit None (Ok tt)] \/
   (exists e, post = [EvAExit None (Err e); EvDump (error_result e)])) /\
  filter service_event post = [].
Proof.
  cbv zeta. split; [reflexivity |].
  exact (no_service_call_after_a_report ascii_lower nat
           (mock_client second_rejected_mock) 0
           (Json (Object (Some "Test") (Some three_urls)))
           [EvFromStorage (Ok tt); EvAEnter (Ok tt);
            EvGet "Test" (Ok (Notebook.Make "nb-real-id" "Test"));
            EvAddUrl "nb-real-id" "https://a.com" false
              (Ok (Source.Make "src-1"));
            EvAddUrl "nb-real-id" "https://bad.com" false
              (Err (raise_of SourceAddError "bad url"));
            EvAddUrl "nb-real-id" "https://c.com" false
              (Ok (Source.Make "src-1"));
            EvWait "nb-real-id" ["src-1"; "src-1"] default_timeout (Ok tt)]
           [EvAExit None (Ok tt)]
           (Report "nb-real-id" "Test" 2 1 ["https://bad.com: bad url"])
           eq_refl).
Defined.
